(** * GoBank: account store, token service, authorization gate and
      transfer handler, embedded from the Go sources.

    - [Types]  : the records of types.go (account, request and response
                 bodies) and the password check.
    - [Store]  : storage.go, the PostgreSQL-backed [Storage]; the accounts
                 table is a list of rows and every query is a function on it.
    - [JWT]    : what github.com/golang-jwt/jwt/v5 does on the paths the
                 program uses: HS256 signing, [Parse] with a key function,
                 the default claims validator.
    - [API]    : api.go, the handlers, [createJWT], [validateJWT] and the
                 [withJWTAuth] gate. *)

From Stdlib Require Import ZArith String Ascii List Bool Lia.
From stdpp Require Import base option gmap strings.
Import ListNotations.

Local Open Scope string_scope.
Local Open Scope Z_scope.

(** ** Go values shared by all components *)

(** A Go [error] value.  Each constructor is one place where the program or
    a library it calls builds an error. *)
Variant error : Type :=
  | ErrMethodNotAllowed (method : string) (* fmt.Errorf("method %s not allowed", ..) *)
  | ErrJSONDecode                         (* encoding/json: Decode failed *)
  | ErrNotAuthenticated                   (* fmt.Errorf("not authenticated") *)
  | ErrAccountNotFound (key : Z)          (* fmt.Errorf("account %d not found", ..) *)
  | ErrInvalidID (idStr : string)         (* fmt.Errorf("invalid id %s", ..) *)
  | ErrDriver                             (* database/sql: the query did not run *)
  | ErrUnexpectedSigningMethod            (* fmt.Errorf("unexpected signing method: %v", ..) *)
  | ErrTokenMalformed                     (* jwt.ErrTokenMalformed *)
  | ErrTokenUnverifiable                  (* jwt.ErrTokenUnverifiable *)
  | ErrTokenSignatureInvalid              (* jwt.ErrTokenSignatureInvalid *)
  | ErrTokenInvalidClaims.                (* jwt.ErrTokenInvalidClaims *)

(** A Go [(T, error)] result on the paths where exactly one of the two is
    set. *)
Variant result (A : Type) : Type :=
  | Ok (a : A)
  | Err (e : error).
Arguments Ok {A} a.
Arguments Err {A} e.

Definition is_ok {A} (r : result A) : bool :=
  match r with Ok _ => true | Err _ => false end.

(** A JSON value as it stands in the header or the claims of a token.
    Numbers are integers, as the program writes them: whole seconds and
    account numbers.  Of an array or an object the model keeps only whether
    encoding/json decodes it into an [interface{}], that is whether every
    number in it has a [float64]. *)
Variant JSON : Type :=
  | JNull
  | JBool (b : bool)
  | JNumber (n : Z)
  | JString (s : string)
  | JNested (decodes : bool).

(** Go's signed 64-bit range ([int] and [int64] on the build targets). *)
Definition int64_min : Z := - 2 ^ 63.
Definition int64_max : Z := 2 ^ 63 - 1.
Definition in_int64 (n : Z) : bool := (int64_min <=? n) && (n <=? int64_max).

(** The value of a 64-bit signed integer that holds [n]: sums of [int64]
    wrap around. *)
Definition wrap_int64 (n : Z) : Z := (n + 2 ^ 63) mod 2 ^ 64 - 2 ^ 63.

(** ** types.go *)
Module Types.

(** Modelled from the spec: the [Account] struct is declared in types.go,
    which is not among the sources.  The fields and their order are those
    [scanIntoAccounts] scans into; the integer types are those the
    handlers use them at ([Number] is compared with an [int64]). *)
Record Account : Type := mkAccount {
  ID : Z;
  FirstName : string;
  LastName : string;
  Number : Z;
  EncryptedPassword : string;
  Balance : Z;
  CreatedAt : Z
}.

(** Modelled from the spec: the body of POST /login, [{number, password}]. *)
Record LoginRequest : Type := mkLoginRequest {
  lr_Number : Z;
  lr_Password : string
}.

(** Modelled from the spec: the body of POST /transfer,
    [{source, destination, amount}]. *)
Record TransferRequest : Type := mkTransferRequest {
  tr_Source : Z;
  tr_Destination : Z;
  tr_Amount : Z
}.

Section Password.
(** [bcrypt.CompareHashAndPassword hash pw = nil], as a boolean. *)
Variable hash_matches : string -> string -> bool.

(** Modelled from the spec: [ValidatePassword] is declared in types.go.
    "VerifyPassword(account, suppliedSecret) -> bool: compares
    suppliedSecret's one-way hash against the stored hash [...] Returns
    false (not an error) on mismatch". *)
Definition ValidatePassword (a : Account) (pw : string) : bool :=
  hash_matches (EncryptedPassword a) pw.
End Password.

(** The value of a member of a JSON object, as far as decoding into a
    struct of integer and string fields tells values apart. *)
Variant Member : Type :=
  | MNull
  | MInteger (n : Z)      (* a number written as an integer literal *)
  | MNumber               (* a number written with a fraction or an exponent *)
  | MString (s : string)
  | MOther.               (* a boolean, an array or an object *)

(** The first JSON value of a request body, as [json.Decoder.Decode] reads
    it.  The members of an object stand in the order they are written: a
    later member for the same field overwrites an earlier one. *)
Variant Document : Type :=
  | DocNull                                       (* null *)
  | DocObject (members : list (string * Member))  (* an object *)
  | DocOther.                  (* a number, a string, a boolean or an array *)

Definition is_byte (c : ascii) (n : nat) : bool := Nat.eqb (nat_of_ascii c) n.

(** The upper-case form of an ASCII letter; any other byte as it is. *)
Definition upper (c : ascii) : ascii :=
  let n := nat_of_ascii c in
  if Nat.leb 97 n && Nat.leb n 122 then ascii_of_nat (n - 32) else c.

(** [foldName] of encoding/json on the UTF-8 bytes of a key: every rune is
    replaced by the smallest rune of its case-folding orbit.  For the ASCII
    letters that is the upper-case letter; the only other runes whose orbit
    holds an ASCII letter are U+017F (bytes 197 191), which folds to S, and
    U+212A (bytes 226 132 170), which folds to K.  Every other rune folds
    to a rune outside ASCII and is kept as it is: the folded names are only
    compared with those of the ASCII field names. *)
Fixpoint foldName (s : string) : string :=
  match s with
  | EmptyString => EmptyString
  | String c s1 =>
      if is_byte c 197 then
        match s1 with
        | String c2 s2 =>
            if is_byte c2 191 then String "S"%char (foldName s2)
            else String c (foldName s1)
        | EmptyString => String c EmptyString
        end
      else if is_byte c 226 then
        match s1 with
        | String c2 (String c3 s3) =>
            if is_byte c2 132 && is_byte c3 170 then String "K"%char (foldName s3)
            else String c (foldName s1)
        | _ => String c (foldName s1)
        end
      else String (upper c) (foldName s1)
  end.

(** Whether a key of the object names the struct field with the JSON name
    [name]: an exact match, or else a match of the folded names.  The
    fields of each struct here have distinct folded names, so the field a
    key selects is the one whose folded name it has. *)
Definition names_field (name key : string) : bool :=
  String.eqb key name || String.eqb (foldName key) (foldName name).

(** [json.Decoder.Decode] into an integer field with the JSON name [key],
    starting from the value [cur]: the members are taken in order; one that
    names the field stores its number when that is an integer literal in
    range, leaves the field as it is when it is [null], and is an error
    otherwise (the decoder goes on, and returns the error at the end). *)
Fixpoint decode_int_from (o : list (string * Member)) (key : string) (cur : Z)
  : result Z :=
  match o with
  | [] => Ok cur
  | (k, v) :: o' =>
      if names_field key k
      then match v with
           | MNull => decode_int_from o' key cur
           | MInteger n =>
               if in_int64 n then decode_int_from o' key n else Err ErrJSONDecode
           | _ => Err ErrJSONDecode
           end
      else decode_int_from o' key cur
  end.

Definition decode_int (o : list (string * Member)) (key : string) : result Z :=
  decode_int_from o key 0.

(** The same for a string field. *)
Fixpoint decode_string_from (o : list (string * Member)) (key : string) (cur : string)
  : result string :=
  match o with
  | [] => Ok cur
  | (k, v) :: o' =>
      if names_field key k
      then match v with
           | MNull => decode_string_from o' key cur
           | MString s => decode_string_from o' key s
           | _ => Err ErrJSONDecode
           end
      else decode_string_from o' key cur
  end.

Definition decode_string (o : list (string * Member)) (key : string) : result string :=
  decode_string_from o key "".

(** Decoding a document into a struct: [null] leaves the struct as it is
    (all fields zero), an object sets the fields its members name, any
    other value is an error. *)
Definition decodeLoginRequest (o : Document) : result LoginRequest :=
  match o with
  | DocNull => Ok (mkLoginRequest 0 "")
  | DocOther => Err ErrJSONDecode
  | DocObject ms =>
      match decode_int ms "number", decode_string ms "password" with
      | Ok n, Ok p => Ok (mkLoginRequest n p)
      | _, _ => Err ErrJSONDecode
      end
  end.

Definition decodeTransferRequest (o : Document) : result TransferRequest :=
  match o with
  | DocNull => Ok (mkTransferRequest 0 0 0)
  | DocOther => Err ErrJSONDecode
  | DocObject ms =>
      match decode_int ms "source", decode_int ms "destination",
            decode_int ms "amount" with
      | Ok s, Ok d, Ok a => Ok (mkTransferRequest s d a)
      | _, _, _ => Err ErrJSONDecode
      end
  end.

(** Modelled from the spec: the body of POST /account,
    [{firstName, lastName, password}]. *)
Record CreateAccountRequest : Type := mkCreateAccountRequest {
  car_FirstName : string;
  car_LastName : string;
  car_Password : string
}.

Definition decodeCreateAccountRequest (o : Document)
  : result CreateAccountRequest :=
  match o with
  | DocNull => Ok (mkCreateAccountRequest "" "" "")
  | DocOther => Err ErrJSONDecode
  | DocObject ms =>
      match decode_string ms "firstName", decode_string ms "lastName",
            decode_string ms "password" with
      | Ok f, Ok l, Ok p => Ok (mkCreateAccountRequest f l p)
      | _, _, _ => Err ErrJSONDecode
      end
  end.

End Types.

(** ** storage.go *)
Module Store.
Import Types.

(** The [sql.DB] behind a [PostgreStore]: the rows of the [accounts]
    table in the order a [SELECT *] returns them, and whether the server
    answers ([db.Query] returns an error when it does not). *)
Record DB : Type := mkDB {
  accounts : list Account;
  reachable : bool
}.

(** The range of a 32-bit integer column; SERIAL columns are such.  A
    query parameter compared with such a column is read as a 32-bit integer:
    outside the range the server refuses the query, and [db.Query] returns
    the error. *)
Definition in_int32 (n : Z) : bool := (- 2 ^ 31 <=? n) && (n <=? 2 ^ 31 - 1).

(** [SELECT * FROM accounts WHERE id = $1] *)
Definition select_by_id (id : Z) (rows : list Account) : list Account :=
  filter (fun a => ID a = id) rows.

(** [SELECT * FROM accounts WHERE number = $1] *)
Definition select_by_number (number : Z) (rows : list Account) : list Account :=
  filter (fun a => Number a = number) rows.

(** [DELETE FROM accounts WHERE id = $1] *)
Definition delete_by_id (id : Z) (rows : list Account) : list Account :=
  filter (fun a => ID a <> id) rows.

(** [PostgreStore.UpdateAccount]: returns nil. *)
Definition UpdateAccount (a : Account) (db : DB) : DB * option error :=
  (db, None).

(** [PostgreStore.DeleteAccount] *)
Definition DeleteAccount (id : Z) (db : DB) : DB * option error :=
  if reachable db && in_int32 id
  then (mkDB (delete_by_id id (accounts db)) (reachable db), None)
  else (db, Some ErrDriver).

(** [PostgreStore.GetAccountByNumber]:
    the first row of the result, or "account %d not found". *)
Definition GetAccountByNumber (number : Z) (db : DB) : result Account :=
  if reachable db && in_int32 number
  then match select_by_number number (accounts db) with
       | a :: _ => Ok a
       | [] => Err (ErrAccountNotFound number)
       end
  else Err ErrDriver.

(** [PostgreStore.GetAccountByID] *)
Definition GetAccountByID (id : Z) (db : DB) : result Account :=
  if reachable db && in_int32 id
  then match select_by_id id (accounts db) with
       | a :: _ => Ok a
       | [] => Err (ErrAccountNotFound id)
       end
  else Err ErrDriver.

(** [PostgreStore.GetAccounts] *)
Definition GetAccounts (db : DB) : result (list Account) :=
  if reachable db then Ok (accounts db) else Err ErrDriver.

(** The balance stored for an account number, when a row has it. *)
Definition balance_of (number : Z) (db : DB) : option Z :=
  match select_by_number number (accounts db) with
  | a :: _ => Some (Balance a)
  | [] => None
  end.

(** The column constraints of [createAccountTable] on the values an INSERT
    gives: [number] and [balance] are SERIAL columns, [encrypted_password]
    is a VARCHAR(100); the text columns are unbounded and no Go value is
    NULL. *)
Definition fits_columns (acc : Account) : bool :=
  in_int32 (Number acc) && in_int32 (Balance acc)
  && (Z.of_nat (String.length (EncryptedPassword acc)) <=? 100).

(** The row an INSERT of [acc] stores: the [id] column is not among the
    columns given, it takes the value [nextval] of its sequence. *)
Definition stored_row (acc : Account) (nextval : Z) : Account :=
  mkAccount nextval (FirstName acc) (LastName acc) (Number acc)
    (EncryptedPassword acc) (Balance acc) (CreatedAt acc).

(** [PostgreStore.CreateAccount], when the [id] sequence hands out
    [nextval]: the INSERT fails when the server does not answer, when a
    value (the id among them) does not fit its column, or when the primary
    key is taken; otherwise the row is added. *)
Definition CreateAccount (acc : Account) (nextval : Z) (db : DB) : DB * option error :=
  if reachable db
  then if fits_columns acc && in_int32 nextval
          && bool_decide (select_by_id nextval (accounts db) = [])
       then (mkDB (accounts db ++ [stored_row acc nextval]) (reachable db), None)
       else (db, Some ErrDriver)
  else (db, Some ErrDriver).

(** The databases the store can hold: the empty table, and what the
    operations of the store make of such a database, whether they succeed
    or fail and whether the server answers or not. *)
Inductive built : DB -> Prop :=
  | built_empty (up : bool) : built (mkDB [] up)
  | built_link (d : DB) (up : bool) : built d -> built (mkDB (accounts d) up)
  | built_create (d d' : DB) (acc : Account) (nextval : Z) (e : option error) :
      built d -> CreateAccount acc nextval d = (d', e) -> built d'
  | built_delete (d d' : DB) (id : Z) (e : option error) :
      built d -> DeleteAccount id d = (d', e) -> built d'
  | built_update (d d' : DB) (acc : Account) (e : option error) :
      built d -> UpdateAccount acc d = (d', e) -> built d'.

End Store.

(** ** github.com/golang-jwt/jwt/v5, as the program uses it *)
Module JWT.

(** A value of a decoded [map[string]interface{}]: [encoding/json] stores
    every JSON number as a [float64].  The numbers of this model are
    integers, so a [float64] is the integer it holds. *)
Variant GoValue : Type :=
  | VNil
  | VBool (b : bool)
  | VFloat64 (f : Z)
  | VString (s : string)
  | VNested.

(** The [float64] nearest to an integer (ties to even): 53 bits of
    significand, so every integer of magnitude up to [2^53] is kept and
    larger ones lose their low bits. *)
Definition float64_of_Z (n : Z) : Z :=
  let a := Z.abs n in
  if a <=? 2 ^ 53 then n
  else
    let e := Z.log2 a - 52 in
    let q := Z.shiftr a e in
    let r := a - Z.shiftl q e in
    let half := Z.shiftl 1 (e - 1) in
    let q' := if (half <? r) || ((r =? half) && Z.odd q) then q + 1 else q in
    Z.sgn n * Z.shiftl q' e.

(** The conversion [int64(f)] of an integral [float64]; out of range the
    result is the one of the amd64 instruction, the smallest [int64]. *)
Definition int64_of_float64 (f : Z) : Z :=
  if in_int64 f then f else int64_min.

(** Whether a number has a [float64]: [strconv.ParseFloat] fails with a
    range error when the nearest [float64] would be an infinity, that is
    when rounding reaches [2^1024]. *)
Definition in_float64 (n : Z) : bool := Z.abs (float64_of_Z n) <? 2 ^ 1024.

(** [json.Unmarshal] of a value into an [interface{}]: a number becomes a
    [float64], and is an error when it has none. *)
Definition decode_value (j : JSON) : option GoValue :=
  match j with
  | JNull => Some VNil
  | JBool b => Some (VBool b)
  | JNumber n => if in_float64 n then Some (VFloat64 (float64_of_Z n)) else None
  | JString s => Some (VString s)
  | JNested decodes => if decodes then Some VNested else None
  end.

(** [json.Unmarshal] of an object into a [map[string]interface{}]: the map
    of the decoded members, or an error ([None]) when a member does not
    decode. *)
Definition decode_object (o : gmap string JSON) : option (gmap string GoValue) :=
  if bool_decide (map_Forall (fun _ j => is_Some (decode_value j)) o)
  then Some (omap decode_value o)
  else None.

Variant Hash : Type := SHA256 | SHA384 | SHA512.

(** The registered signing methods, by the Go type that implements them. *)
Variant SigningMethod : Type :=
  | SigningMethodHMAC (h : Hash)     (* HS256, HS384, HS512 *)
  | SigningMethodRSA (h : Hash)      (* RS256, RS384, RS512 *)
  | SigningMethodRSAPSS (h : Hash)   (* PS256, PS384, PS512 *)
  | SigningMethodECDSA (h : Hash)    (* ES256, ES384, ES512 *)
  | SigningMethodEd25519             (* EdDSA *)
  | signingMethodNone.               (* none *)

(** [jwt.GetSigningMethod] *)
Definition GetSigningMethod (alg : string) : option SigningMethod :=
  if String.eqb alg "HS256" then Some (SigningMethodHMAC SHA256)
  else if String.eqb alg "HS384" then Some (SigningMethodHMAC SHA384)
  else if String.eqb alg "HS512" then Some (SigningMethodHMAC SHA512)
  else if String.eqb alg "RS256" then Some (SigningMethodRSA SHA256)
  else if String.eqb alg "RS384" then Some (SigningMethodRSA SHA384)
  else if String.eqb alg "RS512" then Some (SigningMethodRSA SHA512)
  else if String.eqb alg "PS256" then Some (SigningMethodRSAPSS SHA256)
  else if String.eqb alg "PS384" then Some (SigningMethodRSAPSS SHA384)
  else if String.eqb alg "PS512" then Some (SigningMethodRSAPSS SHA512)
  else if String.eqb alg "ES256" then Some (SigningMethodECDSA SHA256)
  else if String.eqb alg "ES384" then Some (SigningMethodECDSA SHA384)
  else if String.eqb alg "ES512" then Some (SigningMethodECDSA SHA512)
  else if String.eqb alg "EdDSA" then Some SigningMethodEd25519
  else if String.eqb alg "none" then Some signingMethodNone
  else None.

(** The type assertion [token.Method.(SigningMethodHMAC)]. *)
Definition is_HMAC (m : SigningMethod) : bool :=
  match m with SigningMethodHMAC _ => true | _ => false end.

(** The three segments of a compact token after [strings.Split] on the
    dot: the header and the claims as the JSON objects their base64url text
    holds, the signature as its bytes; [None] is a segment that is not
    base64url, or not a JSON object.  The text that is signed,
    [parts[0] + "." + parts[1]], is identified with the two objects it
    encodes. *)
Record Segments : Type := mkSegments {
  seg_header : option (gmap string JSON);
  seg_claims : option (gmap string JSON);
  seg_signature : option string
}.

(** A token string.  [NotThreeParts] is every string that does not split
    into three segments; the empty string, which [Header.Get] returns for an
    absent header, is one of them. *)
Variant TokenString : Type :=
  | NotThreeParts
  | Compact (s : Segments).

(** [jwt.Token] *)
Record Token : Type := mkToken {
  Raw : TokenString;
  Method : option SigningMethod;
  Header : gmap string GoValue;
  Claims : gmap string GoValue;
  Signature : string;
  Valid : bool
}.

(** The token [ParseUnverified] allocates: [&Token{Raw: tokenString}]. *)
Definition blank (raw : TokenString) : Token :=
  mkToken raw None ∅ ∅ "" false.

(** [MapClaims.parseNumericDate]: an absent key and a zero are no date, a
    number is a date, any other value is an error. *)
Definition parseNumericDate (m : gmap string GoValue) (key : string)
  : result (option Z) :=
  match m !! key with
  | None => Ok None
  | Some (VFloat64 f) => if f =? 0 then Ok None else Ok (Some f)
  | Some _ => Err ErrTokenInvalidClaims
  end.

(** The seconds between year 1 and 1970: a [time.Time] holds the seconds
    since year 1 in an [int64]. *)
Definition unixToInternal : Z := 62135596800.

(** The instant [newNumericDateFromSeconds f] builds from the number of a
    claim, as the seconds a [time.Time] holds: [time.Unix(int64(f), 0)],
    where the conversion of a [float64] out of range gives the smallest
    [int64] and the sum with [unixToInternal] wraps around.  A number from
    about [2^63] on is therefore an instant of the far past. *)
Definition numericDate (f : Z) : Z :=
  wrap_int64 (int64_of_float64 f + unixToInternal).

(** [time.Now()] at the Unix second [now], as the seconds a [time.Time]
    holds.  The clock shows an instant that a [time.Time] can hold: a
    reading outside that range is taken to its nearest end. *)
Definition clock (now : Z) : Z :=
  Z.max int64_min (Z.min now (int64_max - unixToInternal)) + unixToInternal.

(** [Validator.verifyExpiresAt] with [required = false] and no leeway:
    the claim read is ["exp"], and the check is [now.Before(exp)]. *)
Definition verifyExpiresAt (m : gmap string GoValue) (now : Z) : bool :=
  match parseNumericDate m "exp" with
  | Err _ => false
  | Ok None => true
  | Ok (Some exp) => clock now <? numericDate exp
  end.

(** [Validator.verifyNotBefore]: the claim read is ["nbf"], and the check
    is [!now.Before(nbf)]. *)
Definition verifyNotBefore (m : gmap string GoValue) (now : Z) : bool :=
  match parseNumericDate m "nbf" with
  | Err _ => false
  | Ok None => true
  | Ok (Some nbf) => negb (clock now <? numericDate nbf)
  end.

(** [Validator.Validate] of the default validator on [MapClaims]: expiry
    and not-before; issued-at, audience, issuer and subject are checked
    only when a parser option asks for them, and [jwt.Parse] sets none. *)
Definition Validate (m : gmap string GoValue) (now : Z) : bool :=
  verifyExpiresAt m now && verifyNotBefore m now.

(** [Parser.ParseUnverified]: the token (nil when the string has not
    three parts), and the error if any. *)
Definition ParseUnverified (tokenString : TokenString)
  : option Token * option error :=
  match tokenString with
  | NotThreeParts => (None, Some ErrTokenMalformed)
  | Compact s =>
      let token := blank tokenString in
      match seg_header s ≫= decode_object with
      | None => (Some token, Some ErrTokenMalformed)
      | Some header =>
          let token := mkToken tokenString None header ∅ "" false in
          match seg_claims s ≫= decode_object with
          | None => (Some token, Some ErrTokenMalformed)
          | Some claims =>
              let token := mkToken tokenString None header claims "" false in
              match header !! "alg" with
              | Some (VString alg) =>
                  match GetSigningMethod alg with
                  | Some m =>
                      (Some (mkToken tokenString (Some m) header claims "" false), None)
                  | None => (Some token, Some ErrTokenUnverifiable)
                  end
              | _ => (Some token, Some ErrTokenUnverifiable)
              end
          end
      end
  end.

(** The signing method a token string names: the registered method of
    the [alg] of its header, when the string parses. *)
Definition method_of (tokenString : TokenString) : option SigningMethod :=
  match ParseUnverified tokenString with
  | (Some t, None) => Method t
  | _ => None
  end.

Section Signing.
(** HMAC of the signing text under a key, per hash. *)
Variable hmac : Hash -> string -> gmap string JSON * gmap string JSON -> string.

(** [SigningMethod.Verify] with a [[]byte] key: the HMAC method compares
    the signature with the MAC it computes; every other method refuses
    the key type. *)
Definition Verify (m : SigningMethod) (text : gmap string JSON * gmap string JSON)
    (sig key : string) : bool :=
  match m with
  | SigningMethodHMAC h => String.eqb sig (hmac h key text)
  | _ => false
  end.

(** [jwt.Parse tokenString keyFunc] at time [now]: parse, decode the
    signature, ask [keyFunc] for the key, verify, validate the claims,
    and only then set [Valid]. *)
Definition Parse (now : Z) (tokenString : TokenString)
    (keyFunc : Token -> result string) : option Token * option error :=
  match ParseUnverified tokenString, tokenString with
  | (Some token, None), Compact s =>
      match seg_signature s with
      | None => (Some token, Some ErrTokenMalformed)
      | Some sig =>
          let token := mkToken (Raw token) (Method token) (Header token)
                         (Claims token) sig false in
          match keyFunc token with
          | Err _ => (Some token, Some ErrTokenUnverifiable)
          | Ok key =>
              match Method token, seg_header s, seg_claims s with
              | Some m, Some h, Some c =>
                  if Verify m (h, c) sig key
                  then if Validate (Claims token) now
                       then (Some (mkToken (Raw token) (Method token) (Header token)
                                     (Claims token) sig true), None)
                       else (Some token, Some ErrTokenInvalidClaims)
                  else (Some token, Some ErrTokenSignatureInvalid)
              | _, _, _ => (Some token, Some ErrTokenSignatureInvalid)
              end
          end
      end
  | r, _ => r
  end.

(** [jwt.NewWithClaims(method, claims).SignedString(key)] for an HMAC
    method and a [[]byte] key, which cannot fail. *)
Definition SignedString (h : Hash) (alg : string) (claims : gmap string JSON)
    (key : string) : TokenString :=
  let header : gmap string JSON := {[ "typ" := JString "JWT"; "alg" := JString alg ]} in
  Compact (mkSegments (Some header) (Some claims) (Some (hmac h key (header, claims)))).
End Signing.

End JWT.

(** ** api.go *)
Module API.
Import Types Store JWT.

(** The [Error] field of an [APIError]: the text of an error, or a
    literal. *)
Variant Message : Type :=
  | ErrorOf (e : error)
  | Literal (s : string).

(** What a handler encodes into the response. *)
Variant Body : Type :=
  | APIError (Error : Message)
  | LoginResponse (Token : TokenString) (number : Z)
  | AccountBody (a : Account)
  | AccountList (l : list Account)
  | TransferBody (t : TransferRequest)
  | DeletedBody (id : Z)
  | PlainText (s : string).

Record Response : Type := mkResponse {
  status : Z;
  body : Body
}.

Definition StatusOK : Z := 200.
Definition StatusBadRequest : Z := 400.
Definition StatusForbidden : Z := 403.
Definition StatusMethodNotAllowed : Z := 405.

(** What a handler reads of an [http.Request]: the method, the first JSON
    value of the body ([None] when the body is empty or does not start with
    a JSON value), the [Authorization] header, and the [id] variable of the
    route (empty when the route has none). *)
Record Request : Type := mkRequest {
  req_Method : string;
  req_Body : option Document;
  req_Authorization : TokenString;
  req_id : string
}.

(** What a handler can change: the responses written to the
    [http.ResponseWriter], oldest first, and the database of the store. *)
Record State : Type := mkState {
  written : list Response;
  db : DB
}.

Variant Panic : Type :=
  | NilDereference        (* invalid memory address or nil pointer dereference *)
  | InterfaceConversion.  (* a failed type assertion without the ok form *)

(** How the call of an [http.HandlerFunc] ends. *)
Variant outcome : Type :=
  | Returned (s : State)
  | Panicked (p : Panic) (s : State).

Definition apiFunc : Type := Request -> State -> State * option error.
Definition HandlerFunc : Type := Request -> State -> outcome.

(** [WriteJSON(w, status, v)] *)
Definition WriteJSON (s : State) (st : Z) (v : Body) : State :=
  mkState (written s ++ [mkResponse st v]) (db s).

(** [http.Error(w, msg, code)] *)
Definition http_Error (s : State) (msg : string) (code : Z) : State :=
  mkState (written s ++ [mkResponse code (PlainText msg)]) (db s).

(** [makeHTTPHandlerFunc]: an error of the handler becomes a 400. *)
Definition makeHTTPHandlerFunc (f : apiFunc) : HandlerFunc :=
  fun r s =>
    match f r s with
    | (s', Some err) => Returned (WriteJSON s' StatusBadRequest (APIError (ErrorOf err)))
    | (s', None) => Returned s'
    end.

Definition is_digit (c : ascii) : bool :=
  let n := Z.of_nat (nat_of_ascii c) in (48 <=? n) && (n <=? 57).

Fixpoint digits (s : string) (acc : Z) : option Z :=
  match s with
  | EmptyString => Some acc
  | String c s' =>
      if is_digit c
      then digits s' (10 * acc + (Z.of_nat (nat_of_ascii c) - 48))
      else None
  end.

(** [strconv.Atoi]: an optional sign, then one or more decimal digits,
    within the range of [int]. *)
Definition Atoi (s : string) : option Z :=
  let '(neg, ds) :=
    match s with
    | String "-"%char t => (true, t)
    | String "+"%char t => (false, t)
    | _ => (false, s)
    end in
  match ds with
  | EmptyString => None
  | _ =>
      match digits ds 0 with
      | None => None
      | Some n =>
          let v := if neg : bool then - n else n in
          if in_int64 v then Some v else None
      end
  end.

(** [getID] *)
Definition getID (r : Request) : result Z :=
  match Atoi (req_id r) with
  | Some id => Ok id
  | None => Err (ErrInvalidID (req_id r))
  end.

(** [PermissionDenied] *)
Definition PermissionDenied (s : State) : State :=
  WriteJSON s StatusForbidden (APIError (Literal "Forbidden")).

Section Server.
(** The process environment: the MAC and the password hash of the
    libraries, and the value of [JWT_SECRET]. *)
Variable hmac : Hash -> string -> gmap string JSON * gmap string JSON -> string.
Variable hash_matches : string -> string -> bool.
Variable JWT_SECRET : string.

(** [createJWT].  [account.Number] is an [int64]: the number written into
    the claims is the 64-bit value of the field. *)
Definition createJWT (account : Account) : result TokenString :=
  let claims : gmap string JSON :=
    {[ "ExpiresAt" := JNumber 1516239022;
       "AccountNumber" := JNumber (wrap_int64 (Number account)) ]} in
  Ok (SignedString hmac SHA256 "HS256" claims JWT_SECRET).

(** The key function [validateJWT] hands to [jwt.Parse]. *)
Definition keyFunc (token : Token) : result string :=
  match Method token with
  | Some m => if is_HMAC m then Ok JWT_SECRET else Err ErrUnexpectedSigningMethod
  | None => Err ErrUnexpectedSigningMethod
  end.

(** [validateJWT], called at time [now] (Unix seconds). *)
Definition validateJWT (now : Z) (tokenString : TokenString)
  : option Token * option error :=
  Parse hmac now tokenString keyFunc.

(** [handleLogin] *)
Definition handleLogin : apiFunc :=
  fun r s =>
    if negb (String.eqb (req_Method r) "POST")
    then (s, Some (ErrMethodNotAllowed (req_Method r)))
    else
      match req_Body r with
      | None => (s, Some ErrJSONDecode)
      | Some o =>
          match decodeLoginRequest o with
          | Err err => (s, Some err)
          | Ok req =>
              match GetAccountByNumber (lr_Number req) (db s) with
              | Err err => (s, Some err)
              | Ok acc =>
                  if ValidatePassword hash_matches acc (lr_Password req)
                  then (s, Some ErrNotAuthenticated)
                  else
                    match createJWT acc with
                    | Err err => (s, Some err)
                    | Ok token =>
                        (WriteJSON s StatusOK (LoginResponse token (Number acc)), None)
                    end
              end
          end
      end.

(** [handleGetAccount] *)
Definition handleGetAccount : apiFunc :=
  fun _ s =>
    match GetAccounts (db s) with
    | Err err => (s, Some err)
    | Ok accounts => (WriteJSON s StatusOK (AccountList accounts), None)
    end.

(** [handleDeleteAccount] *)
Definition handleDeleteAccount : apiFunc :=
  fun r s =>
    match getID r with
    | Err err => (s, Some err)
    | Ok id =>
        match DeleteAccount id (db s) with
        | (db', Some err) => (mkState (written s) db', Some err)
        | (db', None) => (WriteJSON (mkState (written s) db') StatusOK (DeletedBody id), None)
        end
    end.

(** [handleGetAccountByID] *)
Definition handleGetAccountByID : apiFunc :=
  fun r s =>
    if String.eqb (req_Method r) "GET"
    then
      match getID r with
      | Err err => (s, Some err)
      | Ok id =>
          match GetAccountByID id (db s) with
          | Err err => (s, Some err)
          | Ok account => (WriteJSON s StatusOK (AccountBody account), None)
          end
      end
    else if String.eqb (req_Method r) "DELETE"
    then handleDeleteAccount r s
    else (http_Error s "Method not allowed" StatusMethodNotAllowed,
          Some (ErrMethodNotAllowed (req_Method r))).

(** [handleTransferAccount] *)
Definition handleTransferAccount : apiFunc :=
  fun r s =>
    match req_Body r with
    | None => (s, Some ErrJSONDecode)
    | Some o =>
        match decodeTransferRequest o with
        | Err err => (s, Some err)
        | Ok transferRequest =>
            (WriteJSON s StatusOK (TransferBody transferRequest), None)
        end
    end.

(** The part of [withJWTAuth] after the first check. *)
Definition authorize (handlerFunc : HandlerFunc) (token : option Token)
    (r : Request) (s : State) : outcome :=
  match getID r with
  | Err _ => Returned (PermissionDenied s)
  | Ok userID =>
      match GetAccountByID userID (db s) with
      | Err _ => Returned (PermissionDenied s)
      | Ok account =>
          match token with
          | None => Panicked NilDereference s
          | Some t =>
              (* claims["AccountNumber"].(float64) *)
              match Claims t !! "AccountNumber" with
              | Some (VFloat64 f) =>
                  if negb (Number account =? int64_of_float64 f)
                  then Returned (PermissionDenied s)
                  else handlerFunc r s
              | _ => Panicked InterfaceConversion s
              end
          end
      end
  end.

(** [withJWTAuth], serving a request at time [now].  The first check is
    [err != nil && !token.Valid]: with an error, [token.Valid] is read,
    also when [token] is nil. *)
Definition withJWTAuth (handlerFunc : HandlerFunc) (now : Z) : HandlerFunc :=
  fun r s =>
    match validateJWT now (req_Authorization r) with
    | (token, Some _) =>
        match token with
        | None => Panicked NilDereference s
        | Some t =>
            if negb (Valid t)
            then Returned (PermissionDenied s)
            else authorize handlerFunc token r s
        end
    | (token, None) => authorize handlerFunc token r s
    end.

(** The routes of [Run]. *)
Definition route_login : HandlerFunc := makeHTTPHandlerFunc handleLogin.
Definition route_transfer : HandlerFunc := makeHTTPHandlerFunc handleTransferAccount.

(** The account number a valid token carries, as the gate reads it. *)
Definition token_identity (t : Token) : option Z :=
  match Claims t !! "AccountNumber" with
  | Some (VFloat64 f) => Some (int64_of_float64 f)
  | _ => None
  end.
End Server.

Section Router.
(** The process environment, and [NewAccount] of types.go, which is not
    among the sources: it is taken as it is, a function from the first
    name, the last name and the password to an account or an error. *)
Variable hmac : Hash -> string -> gmap string JSON * gmap string JSON -> string.
Variable hash_matches : string -> string -> bool.
Variable JWT_SECRET : string.
Variable NewAccount : string -> string -> string -> result Account.

(** [handleCreateAccount], when the [id] sequence of the table hands out
    [nextval].  The account written to the response is the one
    [NewAccount] built. *)
Definition handleCreateAccount (nextval : Z) : apiFunc :=
  fun r s =>
    match req_Body r with
    | None => (s, Some ErrJSONDecode)
    | Some o =>
        match decodeCreateAccountRequest o with
        | Err err => (s, Some err)
        | Ok createAccountReq =>
            match NewAccount (car_FirstName createAccountReq)
                    (car_LastName createAccountReq) (car_Password createAccountReq) with
            | Err err => (s, Some err)
            | Ok account =>
                match CreateAccount account nextval (db s) with
                | (db', Some err) => (mkState (written s) db', Some err)
                | (db', None) =>
                    (WriteJSON (mkState (written s) db') StatusOK (AccountBody account), None)
                end
            end
        end
    end.

(** [handleAccount] *)
Definition handleAccount (nextval : Z) : apiFunc :=
  fun r s =>
    if String.eqb (req_Method r) "GET" then handleGetAccount r s
    else if String.eqb (req_Method r) "POST" then handleCreateAccount nextval r s
    else (http_Error s "Method not allowed" StatusMethodNotAllowed,
          Some (ErrMethodNotAllowed (req_Method r))).

(** The four paths [Run] registers. *)
Variant Route : Type :=
  | RouteLogin        (* /login *)
  | RouteAccount      (* /account *)
  | RouteAccountID    (* /account/{id} *)
  | RouteTransfer.    (* /transfer *)

(** The handler [Run] registers for each path, serving at time [now]. *)
Definition Run (now nextval : Z) (route : Route) : HandlerFunc :=
  match route with
  | RouteLogin => makeHTTPHandlerFunc (handleLogin hmac hash_matches JWT_SECRET)
  | RouteAccount => makeHTTPHandlerFunc (handleAccount nextval)
  | RouteAccountID =>
      withJWTAuth hmac JWT_SECRET (makeHTTPHandlerFunc handleGetAccountByID) now
  | RouteTransfer => makeHTTPHandlerFunc handleTransferAccount
  end.
End Router.

End API.

(** ** Sample data on which the statements below are exercised *)
Module Sample.
Import Types Store JWT API.

(** A stand-in MAC: the key followed by the [alg] of the header. *)
Definition sample_hmac (h : Hash) (key : string)
    (text : gmap string JSON * gmap string JSON) : string :=
  match fst text !! "alg" with
  | Some (JString alg) => key ++ alg
  | _ => key
  end.

(** A stand-in password hash: the hash of a password is the password. *)
Definition sample_hash_matches (hash pw : string) : bool := String.eqb hash pw.

Definition alice : Account := mkAccount 1 "Alice" "A" 1001 "alice-pw" 100 0.
Definition bob : Account := mkAccount 2 "Bob" "B" 1002 "bob-pw" 0 0.
Definition bank : DB := mkDB [alice; bob] true.
Definition idle : State := mkState [] bank.

Definition login_body (number : Z) (pw : string) : Document :=
  DocObject [("number", MInteger number); ("password", MString pw)].

Definition transfer_body (src dst amount : Z) : Document :=
  DocObject [("source", MInteger src); ("destination", MInteger dst);
             ("amount", MInteger amount)].

Definition post (o : Document) : Request :=
  mkRequest "POST" (Some o) NotThreeParts "".

(** A GET of [/account/{id}] bearing a token. *)
Definition get_account (id : string) (token : TokenString) : Request :=
  mkRequest "GET" None token id.

(** The token the server issues for an account under the secret ["s3cret"]. *)
Definition token_of (a : Account) : TokenString :=
  match createJWT sample_hmac "s3cret" a with
  | Ok t => t
  | Err _ => NotThreeParts
  end.

(** A token that names the [none] algorithm. *)
Definition none_token : TokenString :=
  Compact (mkSegments (Some {[ "alg" := JString "none" ]})
             (Some {[ "AccountNumber" := JNumber 1001 ]}) (Some "")).

(** A handler that leaves a mark when it runs. *)
Definition marking_handler : HandlerFunc :=
  fun _ s => Returned (WriteJSON s StatusOK (PlainText "invoked")).
(** An account as a caller hands it to [CreateAccount]: no id yet. *)
Definition erin : Account := mkAccount 0 "Erin" "E" 1003 "erin-pw" 0 0.

(** A stand-in for [NewAccount]: the number is fixed, the password is
    stored as it is. *)
Definition sample_NewAccount (first last pw : string) : result Account :=
  Ok (mkAccount 0 first last 1003 pw 0 0).


(** A token with the given claims, signed with the given HMAC method under
    the given secret. *)
Definition signed (h : Hash) (alg : string) (claims : gmap string JSON)
    (secret : string) : TokenString :=
  SignedString sample_hmac h alg claims secret.

(** Alice's claims with a standard expiry. *)
Definition exp_token (exp : Z) : TokenString :=
  signed SHA256 "HS256" {[ "exp" := JNumber exp; "AccountNumber" := JNumber 1001 ]} "s3cret".

(** Alice's claims with a not-before instant. *)
Definition nbf_token (nbf : Z) : TokenString :=
  signed SHA256 "HS256" {[ "nbf" := JNumber nbf; "AccountNumber" := JNumber 1001 ]} "s3cret".

(** A token of the server's secret that names no account. *)
Definition anonymous_token : TokenString :=
  signed SHA256 "HS256" {[ "sub" := JString "alice" ]} "s3cret".

(** Alice's claims signed with HS512. *)
Definition hs512_token : TokenString :=
  signed SHA512 "HS512" {[ "AccountNumber" := JNumber 1001 ]} "s3cret".

(** Alice's claims signed under another secret. *)
Definition foreign_secret_token : TokenString :=
  signed SHA256 "HS256" {[ "AccountNumber" := JNumber 1001 ]} "other".

(** A DELETE of [/account/{id}] bearing a token. *)
Definition delete_account (id : string) (token : TokenString) : Request :=
  mkRequest "DELETE" None token id.
(** The token [validateJWT] returns for a token string under the sample
    secret at time 1700000000. *)
Definition parsed (ts : TokenString) : Token :=
  match validateJWT sample_hmac "s3cret" 1700000000 ts with
  | (Some t, _) => t
  | (None, _) => blank ts
  end.
End Sample.

(** * Properties *)

Import Types Store JWT API.

(** ** Account store *)

Lemma select_after_delete (id : Z) (rows : list Account) :
  select_by_id id (delete_by_id id rows) = [].
Proof.
  unfold select_by_id, delete_by_id.
  induction rows as [|a rows IH]; [reflexivity|].
  rewrite (filter_cons _ a rows).
  destruct (decide (ID a <> id)) as [Hne|Heq].
  - rewrite filter_cons. destruct (decide (ID a = id)); [contradiction|exact IH].
  - exact IH.
Qed.

Lemma DeleteAccount_ok_inv (id : Z) (d d' : DB) :
  DeleteAccount id d = (d', None) ->
  reachable d = true /\ in_int32 id = true /\
  d' = mkDB (delete_by_id id (accounts d)) true.
Proof.
  unfold DeleteAccount.
  destruct (reachable d) eqn:Hr, (in_int32 id) eqn:Hid; simpl; intros H;
    try discriminate H.
  injection H as <-. repeat split; reflexivity.
Qed.

(** C8: once [DeleteAccount id] has succeeded, [GetAccountByID id] on the
    resulting database fails with the error "account id not found". *)
Theorem deleted_account_not_found (id : Z) (d d' : DB) :
  DeleteAccount id d = (d', None) ->
  GetAccountByID id d' = Err (ErrAccountNotFound id).
Proof.
  intros H. apply DeleteAccount_ok_inv in H as (_ & Hid & ->).
  unfold GetAccountByID; simpl. rewrite Hid.
  now rewrite select_after_delete.
Qed.

Lemma deleted_account_not_found_witness :
  DeleteAccount 1 Sample.bank = (mkDB [Sample.bob] true, None) /\
  GetAccountByID 1 (mkDB [Sample.bob] true) = Err (ErrAccountNotFound 1).
Proof.
  split; [reflexivity|].
  apply (deleted_account_not_found 1 Sample.bank); reflexivity.
Defined.

(** Deleting one account leaves the rows of every other id as they were. *)
Lemma delete_keeps_other_ids (id id' : Z) (rows : list Account) :
  id <> id' -> select_by_id id' (delete_by_id id rows) = select_by_id id' rows.
Proof.
  intros Hne. unfold select_by_id, delete_by_id.
  induction rows as [|a rows IH]; [reflexivity|].
  rewrite (filter_cons _ a rows).
  destruct (decide (ID a <> id)) as [Hd|Hd].
  - rewrite !filter_cons. destruct (decide (ID a = id')); [f_equal|]; exact IH.
  - rewrite filter_cons. destruct (decide (ID a = id')) as [He|He]; [|exact IH].
    exfalso. apply Hd. congruence.
Qed.

(** ** Transfer handler *)

Lemma balance_of_resolved (number : Z) (d : DB) (a : Account) :
  GetAccountByNumber number d = Ok a -> balance_of number d = Some (Balance a).
Proof.
  unfold GetAccountByNumber, balance_of.
  destruct (reachable d && in_int32 number); [|discriminate].
  destruct (select_by_number number (accounts d)); [discriminate|].
  now intros [= ->].
Qed.

(** What [handleTransferAccount] does with a body that decodes: one 200
    response carrying the decoded request, and the database as it was. *)
Lemma handleTransferAccount_decoded (r : Request) (s : State)
    (o : Document) (t : TransferRequest) :
  req_Body r = Some o ->
  decodeTransferRequest o = Ok t ->
  handleTransferAccount r s = (WriteJSON s StatusOK (TransferBody t), None).
Proof.
  intros Hb Hd. unfold handleTransferAccount. now rewrite Hb, Hd.
Qed.

(** C10: for every request body that decodes into a [TransferRequest] (an
    object whose members for the three fields, matched without regard to
    case, are integers or [null], or the body [null]), the /transfer route
    leaves the database exactly as it was and writes one response, 200 with
    the decoded request. *)
Theorem transfer_is_echo_only (r : Request) (s : State)
    (o : Document) (t : TransferRequest) :
  req_Body r = Some o ->
  decodeTransferRequest o = Ok t ->
  exists s',
    route_transfer r s = Returned s' /\
    db s' = db s /\
    written s' = (written s ++ [mkResponse StatusOK (TransferBody t)])%list.
Proof.
  intros Hb Hd. exists (WriteJSON s StatusOK (TransferBody t)).
  unfold route_transfer, makeHTTPHandlerFunc.
  rewrite (handleTransferAccount_decoded r s o t Hb Hd).
  repeat split.
Qed.

Lemma transfer_is_echo_only_witness :
  exists s',
    route_transfer (Sample.post (Sample.transfer_body 1001 1002 50)) Sample.idle
      = Returned s' /\
    db s' = Sample.bank /\
    written s' = [mkResponse StatusOK (TransferBody (mkTransferRequest 1001 1002 50))].
Proof.
  apply (transfer_is_echo_only (Sample.post (Sample.transfer_body 1001 1002 50))
           Sample.idle (Sample.transfer_body 1001 1002 50)
           (mkTransferRequest 1001 1002 50)); reflexivity.
Defined.

(** The decoder matches keys as encoding/json does, without regard to case,
    and a [null] body decodes to the zero request: both are echoed. *)
Example transfer_capitalised_key_echoed :
  route_transfer
    (Sample.post (DocObject [("source", MInteger 1001); ("destination", MInteger 1002);
                             ("Amount", MInteger 50)])) Sample.idle
  = Returned (WriteJSON Sample.idle StatusOK
                (TransferBody (mkTransferRequest 1001 1002 50))).
Proof. reflexivity. Qed.

Example transfer_null_body_echoed :
  route_transfer (Sample.post DocNull) Sample.idle
  = Returned (WriteJSON Sample.idle StatusOK (TransferBody (mkTransferRequest 0 0 0))).
Proof. reflexivity. Qed.

(** C2, as the code has it: for a transfer request with a positive amount,
    distinct source and destination numbers that both resolve, and a source
    balance that covers the amount, the /transfer route answers 200 with
    the request and applies neither mutation: the source and the destination
    balances are the ones before the call. *)
Theorem transfer_applies_neither_mutation (r : Request) (s : State)
    (o : Document) (t : TransferRequest) (src dst : Account) :
  req_Body r = Some o ->
  decodeTransferRequest o = Ok t ->
  0 < tr_Amount t ->
  tr_Source t <> tr_Destination t ->
  GetAccountByNumber (tr_Source t) (db s) = Ok src ->
  GetAccountByNumber (tr_Destination t) (db s) = Ok dst ->
  tr_Amount t <= Balance src ->
  exists s',
    route_transfer r s = Returned s' /\
    last (written s') = Some (mkResponse StatusOK (TransferBody t)) /\
    balance_of (tr_Source t) (db s') = Some (Balance src) /\
    balance_of (tr_Destination t) (db s') = Some (Balance dst).
Proof.
  intros Hb Hd _ _ Hsrc Hdst _.
  exists (WriteJSON s StatusOK (TransferBody t)).
  unfold route_transfer, makeHTTPHandlerFunc.
  rewrite (handleTransferAccount_decoded r s o t Hb Hd).
  split; [reflexivity|]. split.
  - simpl. apply last_snoc.
  - simpl. split; now apply balance_of_resolved.
Qed.

Lemma transfer_applies_neither_mutation_witness :
  exists s',
    route_transfer (Sample.post (Sample.transfer_body 1001 1002 50)) Sample.idle
      = Returned s' /\
    last (written s')
      = Some (mkResponse StatusOK (TransferBody (mkTransferRequest 1001 1002 50))) /\
    balance_of 1001 (db s') = Some 100 /\
    balance_of 1002 (db s') = Some 0.
Proof.
  apply (transfer_applies_neither_mutation
           (Sample.post (Sample.transfer_body 1001 1002 50)) Sample.idle
           (Sample.transfer_body 1001 1002 50) (mkTransferRequest 1001 1002 50)
           Sample.alice Sample.bob); try reflexivity; simpl; lia.
Defined.

(** C2 as stated does not hold: on the sample bank, the transfer of 50 from
    account 1001 (balance 100) to account 1002 (balance 0) is answered, and
    the source balance is not 50 afterwards. *)
Lemma transfer_moves_no_money :
  ~ (forall (r : Request) (s s' : State) (o : Document)
       (t : TransferRequest) (src dst : Account),
       req_Body r = Some o ->
       decodeTransferRequest o = Ok t ->
       0 < tr_Amount t ->
       tr_Source t <> tr_Destination t ->
       GetAccountByNumber (tr_Source t) (db s) = Ok src ->
       GetAccountByNumber (tr_Destination t) (db s) = Ok dst ->
       tr_Amount t <= Balance src ->
       route_transfer r s = Returned s' ->
       balance_of (tr_Source t) (db s') = Some (Balance src - tr_Amount t) /\
       balance_of (tr_Destination t) (db s') = Some (Balance dst + tr_Amount t)).
Proof.
  intros H.
  destruct (H (Sample.post (Sample.transfer_body 1001 1002 50)) Sample.idle
              (WriteJSON Sample.idle StatusOK (TransferBody (mkTransferRequest 1001 1002 50)))
              (Sample.transfer_body 1001 1002 50) (mkTransferRequest 1001 1002 50)
              Sample.alice Sample.bob) as [Hsrc _];
    try reflexivity; try (simpl; lia).
  vm_compute in Hsrc. discriminate Hsrc.
Qed.

(** C3, as the code has it: for a transfer request whose amount is not
    positive, or exceeds the balance of the source account, the handler
    returns no error, answers 200 with the request, and leaves the balance
    of every account, the source and the destination among them,
    unchanged. *)
Theorem invalid_transfer_is_echoed (r : Request) (s : State)
    (o : Document) (t : TransferRequest) :
  req_Body r = Some o ->
  decodeTransferRequest o = Ok t ->
  (tr_Amount t <= 0 \/
   exists src, GetAccountByNumber (tr_Source t) (db s) = Ok src /\
               Balance src < tr_Amount t) ->
  exists s',
    handleTransferAccount r s = (s', None) /\
    written s' = (written s ++ [mkResponse StatusOK (TransferBody t)])%list /\
    balance_of (tr_Source t) (db s') = balance_of (tr_Source t) (db s) /\
    balance_of (tr_Destination t) (db s') = balance_of (tr_Destination t) (db s).
Proof.
  intros Hb Hd _.
  exists (WriteJSON s StatusOK (TransferBody t)).
  rewrite (handleTransferAccount_decoded r s o t Hb Hd).
  repeat split.
Qed.

Lemma invalid_transfer_is_echoed_witness :
  exists s',
    handleTransferAccount (Sample.post (Sample.transfer_body 1001 1002 500)) Sample.idle
      = (s', None) /\
    written s' = [mkResponse StatusOK (TransferBody (mkTransferRequest 1001 1002 500))] /\
    balance_of 1001 (db s') = balance_of 1001 Sample.bank /\
    balance_of 1002 (db s') = balance_of 1002 Sample.bank.
Proof.
  apply (invalid_transfer_is_echoed
           (Sample.post (Sample.transfer_body 1001 1002 500)) Sample.idle
           (Sample.transfer_body 1001 1002 500) (mkTransferRequest 1001 1002 500));
    try reflexivity.
  right. exists Sample.alice. split; [reflexivity | simpl; lia].
Defined.

(** C3 as stated does not hold: the transfer of 500 from account 1001,
    whose balance is 100, returns no error. *)
Lemma overdraft_transfer_returns_no_error :
  ~ (forall (r : Request) (s : State) (o : Document) (t : TransferRequest),
       req_Body r = Some o ->
       decodeTransferRequest o = Ok t ->
       (tr_Amount t <= 0 \/
        exists src, GetAccountByNumber (tr_Source t) (db s) = Ok src /\
                    Balance src < tr_Amount t) ->
       exists s' err,
         handleTransferAccount r s = (s', Some err) /\
         balance_of (tr_Source t) (db s') = balance_of (tr_Source t) (db s) /\
         balance_of (tr_Destination t) (db s') = balance_of (tr_Destination t) (db s)).
Proof.
  intros H.
  destruct (H (Sample.post (Sample.transfer_body 1001 1002 500)) Sample.idle
              (Sample.transfer_body 1001 1002 500) (mkTransferRequest 1001 1002 500))
    as (s' & err & Hrun & _); try reflexivity.
  - right. exists Sample.alice. split; [reflexivity | simpl; lia].
  - vm_compute in Hrun. discriminate Hrun.
Qed.

(** ** What the store can hold *)

Lemma in_int32_range (n : Z) : in_int32 n = true <-> - 2 ^ 31 <= n <= 2 ^ 31 - 1.
Proof. unfold in_int32. rewrite andb_true_iff, !Z.leb_le. tauto. Qed.

Lemma in_int32_small (n : Z) : in_int32 n = true -> Z.abs n <= 2 ^ 53.
Proof. intros H. apply in_int32_range in H. lia. Qed.

Lemma fits_columns_int32 (acc : Account) :
  fits_columns acc = true -> in_int32 (Number acc) = true.
Proof.
  unfold fits_columns. intros H.
  apply andb_prop in H as [H _]. now apply andb_prop in H as [H _].
Qed.

Lemma CreateAccount_inv (acc : Account) (nextval : Z) (d d' : DB) (e : option error) :
  CreateAccount acc nextval d = (d', e) ->
  d' = d \/
  (e = None /\ reachable d = true /\ fits_columns acc = true /\
   in_int32 nextval = true /\ select_by_id nextval (accounts d) = [] /\
   d' = mkDB (accounts d ++ [stored_row acc nextval]) true).
Proof.
  unfold CreateAccount. destruct (reachable d); [|intros [= <- <-]; now left].
  destruct (fits_columns acc); simpl; [|intros [= <- <-]; now left].
  destruct (in_int32 nextval); simpl; [|intros [= <- <-]; now left].
  case_bool_decide as Hfree; [|intros [= <- <-]; now left].
  intros [= <- <-]. right. repeat split; auto.
Qed.

(** Every row of a database the store can hold satisfies the column types:
    its number, balance and password fit, and its id is a 32-bit integer. *)
Lemma built_rows_fit (d : DB) :
  built d ->
  forall a, a ∈ accounts d -> fits_columns a = true /\ in_int32 (ID a) = true.
Proof.
  induction 1 as [up | d up _ IH | d d' acc nextval e _ IH Hc
                 | d d' id e _ IH Hd | d d' acc e _ IH Hu]; simpl.
  - intros a Ha. inversion Ha.
  - exact IH.
  - apply CreateAccount_inv in Hc as [-> | (_ & _ & Hfit & Hid & _ & ->)];
      [exact IH|].
    simpl. intros a Ha. apply elem_of_app in Ha as [Ha | Ha]; [now apply IH|].
    apply list_elem_of_singleton in Ha as ->. split; [exact Hfit | exact Hid].
  - unfold DeleteAccount in Hd.
    destruct (reachable d && in_int32 id); injection Hd as <- _; [|exact IH].
    simpl. intros a Ha. unfold delete_by_id in Ha.
    apply list_elem_of_filter in Ha as [_ Ha]. now apply IH.
  - injection Hu as <- _. exact IH.
Qed.

(** ** Token service *)

Lemma float64_of_Z_exact (n : Z) : Z.abs n <= 2 ^ 53 -> float64_of_Z n = n.
Proof.
  intros H. unfold float64_of_Z.
  destruct (Z.leb_spec (Z.abs n) (2 ^ 53)); [reflexivity | lia].
Qed.

Lemma int64_of_float64_exact (n : Z) : Z.abs n <= 2 ^ 53 -> int64_of_float64 n = n.
Proof.
  intros H. unfold int64_of_float64, in_int64, int64_min, int64_max.
  destruct (Z.leb_spec (- 2 ^ 63) n), (Z.leb_spec n (2 ^ 63 - 1));
    simpl; try reflexivity; lia.
Qed.

Lemma in_int64_range (n : Z) : in_int64 n = true <-> - 2 ^ 63 <= n <= 2 ^ 63 - 1.
Proof.
  unfold in_int64, int64_min, int64_max.
  rewrite andb_true_iff, !Z.leb_le. tauto.
Qed.

Lemma wrap_int64_exact (n : Z) : in_int64 n = true -> wrap_int64 n = n.
Proof.
  intros H. apply in_int64_range in H. unfold wrap_int64.
  rewrite Z.mod_small by lia. lia.
Qed.

Lemma wrap_int64_range (n : Z) : - 2 ^ 63 <= wrap_int64 n <= 2 ^ 63 - 1.
Proof.
  unfold wrap_int64.
  pose proof (Z.mod_pos_bound (n + 2 ^ 63) (2 ^ 64) ltac:(lia)). lia.
Qed.

(** Rounding to a [float64] at most doubles the magnitude. *)
Lemma float64_of_Z_le_double (n : Z) : Z.abs (float64_of_Z n) <= 2 * Z.abs n.
Proof.
  unfold float64_of_Z.
  destruct (Z.leb_spec (Z.abs n) (2 ^ 53)) as [|Hbig]; [lia|].
  set (a := Z.abs n) in *.
  set (e := Z.log2 a - 52).
  assert (Ha : 0 < a) by lia.
  assert (He : 1 <= e).
  { unfold e. assert (53 <= Z.log2 a); [|lia].
    change 53 with (Z.log2 (2 ^ 53)). apply Z.log2_le_mono. lia. }
  assert (Hpow : 2 ^ e <= a).
  { transitivity (2 ^ Z.log2 a).
    - apply Z.pow_le_mono_r; unfold e; lia.
    - apply Z.log2_spec. exact Ha. }
  assert (Hq : Z.shiftr a e * 2 ^ e <= a).
  { rewrite Z.shiftr_div_pow2 by lia. rewrite Z.mul_comm.
    apply Z.mul_div_le. lia. }
  assert (Hq0 : 0 <= Z.shiftr a e) by (apply Z.shiftr_nonneg; lia).
  set (q := Z.shiftr a e) in *.
  set (q' := if _ : bool then q + 1 else q).
  assert (Hq' : 0 <= q' <= q + 1) by (unfold q'; destruct (_ || _); lia).
  rewrite Z.abs_mul, Z.shiftl_mul_pow2 by lia.
  assert (Hs : Z.abs (Z.sgn n) = 1) by (unfold a in Ha; lia).
  rewrite Hs, Z.mul_1_l, Z.abs_eq by nia. nia.
Qed.

(** Every [int64] has a [float64]. *)
Lemma in_float64_int64 (n : Z) : - 2 ^ 63 <= n <= 2 ^ 63 - 1 -> in_float64 n = true.
Proof.
  intros H. unfold in_float64. apply Z.ltb_lt.
  pose proof (float64_of_Z_le_double n).
  assert (2 * Z.abs n <= 2 ^ 64) by lia.
  assert (2 ^ 64 < 2 ^ 1024) by (apply Z.pow_lt_mono_r; lia).
  lia.
Qed.

Lemma decode_object_total (o : gmap string JSON) :
  map_Forall (fun _ j => is_Some (decode_value j)) o ->
  decode_object o = Some (omap decode_value o).
Proof. intros H. unfold decode_object. now rewrite bool_decide_eq_true_2. Qed.

Lemma decode_object_lookup (o : gmap string JSON) (m : gmap string GoValue)
    (k : string) :
  decode_object o = Some m -> m !! k = o !! k ≫= decode_value.
Proof.
  unfold decode_object. case_bool_decide; [|discriminate].
  intros [= <-]. apply lookup_omap.
Qed.

Lemma decode_object_member (o : gmap string JSON) (m : gmap string GoValue)
    (k : string) (j : JSON) :
  decode_object o = Some m -> o !! k = Some j ->
  exists v, decode_value j = Some v /\ m !! k = Some v.
Proof.
  intros Hd Hk. pose proof (decode_object_lookup o m k Hd) as Hl.
  unfold decode_object in Hd. case_bool_decide as Hall; [|discriminate].
  destruct (map_Forall_lookup_1 _ _ _ _ Hall Hk) as [v Hv].
  exists v. split; [exact Hv|]. rewrite Hl, Hk. exact Hv.
Qed.

(** The header [SignedString] writes decodes. *)
Lemma decode_signed_header (alg : string) :
  is_Some (decode_object {[ "typ" := JString "JWT"; "alg" := JString alg ]}).
Proof.
  rewrite decode_object_total; [eauto|].
  apply map_Forall_insert_2; [simpl; eauto|].
  apply map_Forall_singleton. simpl. eauto.
Qed.

(** The claims [createJWT] writes decode. *)
Lemma decode_issued_claims (n : Z) :
  in_float64 n = true ->
  is_Some (decode_object {[ "ExpiresAt" := JNumber 1516239022;
                            "AccountNumber" := JNumber n ]}).
Proof.
  intros Hn. rewrite decode_object_total; [eauto|].
  apply map_Forall_insert_2; [vm_compute; eauto|].
  apply map_Forall_singleton. simpl. rewrite Hn. eauto.
Qed.

Lemma ParseUnverified_known_method (s : Segments) (h c : gmap string JSON)
    (header claims : gmap string GoValue) (alg : string) (m : SigningMethod) :
  seg_header s = Some h ->
  seg_claims s = Some c ->
  decode_object h = Some header ->
  decode_object c = Some claims ->
  h !! "alg" = Some (JString alg) ->
  GetSigningMethod alg = Some m ->
  ParseUnverified (Compact s)
  = (Some (mkToken (Compact s) (Some m) header claims "" false), None).
Proof.
  intros Hh Hc Hdh Hdc Halg Hm. unfold ParseUnverified.
  rewrite Hh, Hc. simpl. rewrite Hdh, Hdc.
  rewrite (decode_object_lookup _ _ "alg" Hdh), Halg. simpl. now rewrite Hm.
Qed.

(** A token that [ParseUnverified] returns is not yet valid. *)
Lemma ParseUnverified_not_valid (ts : TokenString) (t : Token) (e : option error) :
  ParseUnverified ts = (Some t, e) -> Valid t = false.
Proof.
  unfold ParseUnverified. intros H.
  repeat case_match; simplify_eq; reflexivity.
Qed.

(** Claims without the keys the validator reads, "exp" and "nbf", pass it
    at every time. *)
Lemma Validate_no_dates (m : gmap string GoValue) (now : Z) :
  m !! "exp" = None -> m !! "nbf" = None -> Validate m now = true.
Proof.
  intros He Hn. unfold Validate, verifyExpiresAt, verifyNotBefore, parseNumericDate.
  now rewrite He, Hn.
Qed.
(** A date that is not after the clock's reading is not after it as the
    validator compares them either, whatever the number of the claim. *)
Lemma numericDate_past (f now : Z) : f <= now -> numericDate f <= clock now.
Proof.
  intros H. unfold numericDate, clock, wrap_int64, int64_of_float64, in_int64,
    int64_min, int64_max, unixToInternal.
  destruct (Z.leb_spec (- 2 ^ 63) f), (Z.leb_spec f (2 ^ 63 - 1)); simpl;
    Z.div_mod_to_equations; lia.
Qed.

(** A date after the clock's reading, within the instants a [time.Time]
    holds without wrapping, is after it as the validator compares them. *)
Lemma numericDate_future (f now : Z) :
  - 2 ^ 63 <= now -> now < f -> f + unixToInternal <= 2 ^ 63 - 1 ->
  clock now < numericDate f.
Proof.
  intros Hlo H Hhi. unfold numericDate, clock, wrap_int64, int64_of_float64, in_int64,
    int64_min, int64_max, unixToInternal in *.
  destruct (Z.leb_spec (- 2 ^ 63) f), (Z.leb_spec f (2 ^ 63 - 1)); simpl;
    Z.div_mod_to_equations; lia.
Qed.

Section TokenService.
Variable hmac : Hash -> string -> gmap string JSON * gmap string JSON -> string.
Variable JWT_SECRET : string.

(** When [validateJWT] accepts: three segments that decode, an HMAC
    [alg], the MAC of the first two segments under the secret as
    signature, and claims that pass the validator. *)
Lemma validateJWT_accepts (now : Z) (s : Segments) (h c : gmap string JSON)
    (header claims : gmap string GoValue) (alg sig : string) (hash : Hash) :
  seg_header s = Some h ->
  seg_claims s = Some c ->
  seg_signature s = Some sig ->
  decode_object h = Some header ->
  decode_object c = Some claims ->
  h !! "alg" = Some (JString alg) ->
  GetSigningMethod alg = Some (SigningMethodHMAC hash) ->
  sig = hmac hash JWT_SECRET (h, c) ->
  Validate claims now = true ->
  validateJWT hmac JWT_SECRET now (Compact s)
  = (Some (mkToken (Compact s) (Some (SigningMethodHMAC hash)) header claims sig true),
     None).
Proof.
  intros Hh Hc Hs Hdh Hdc Halg Hm Hsig Hv. unfold validateJWT, Parse.
  rewrite (ParseUnverified_known_method s h c header claims alg _ Hh Hc Hdh Hdc Halg Hm).
  rewrite Hs. unfold keyFunc. simpl. rewrite Hh, Hc. simpl.
  rewrite Hsig, String.eqb_refl, Hv. reflexivity.
Qed.

(** The token [createJWT] issues validates under the same secret at every
    time, with the claims it was issued with. *)
Lemma validate_issued (a : Account) (now : Z) (token : TokenString) :
  createJWT hmac JWT_SECRET a = Ok token ->
  exists t,
    validateJWT hmac JWT_SECRET now token = (Some t, None) /\
    Valid t = true /\
    Claims t !! "AccountNumber"
      = Some (VFloat64 (float64_of_Z (wrap_int64 (Number a)))) /\
    Claims t !! "ExpiresAt" = Some (VFloat64 1516239022).
Proof.
  intros [= <-]. unfold SignedString.
  pose proof (in_float64_int64 _ (wrap_int64_range (Number a))) as Hn.
  destruct (decode_signed_header "HS256") as [header Hdh].
  destruct (decode_issued_claims _ Hn) as [claims Hdc].
  assert (Hlook : forall k, claims !! k
            = ({[ "ExpiresAt" := JNumber 1516239022;
                  "AccountNumber" := JNumber (wrap_int64 (Number a)) ]}
                 : gmap string JSON) !! k ≫= decode_value)
    by (intros k; apply decode_object_lookup; exact Hdc).
  eexists. split.
  - eapply (validateJWT_accepts now _ _ _ header claims "HS256" _ SHA256);
      try reflexivity; try eassumption.
    apply Validate_no_dates; rewrite Hlook;
      rewrite lookup_insert_ne by discriminate;
      rewrite lookup_singleton_ne by discriminate; reflexivity.
  - simpl. split; [reflexivity|]. rewrite !Hlook. split.
    + rewrite lookup_insert_ne by discriminate.
      rewrite lookup_singleton_eq. simpl. now rewrite Hn.
    + rewrite lookup_insert_eq. reflexivity.
Qed.

(** X12: the library does enforce an expiry that stands under the key "exp":
    a token whose "exp" is not after [now] is refused. *)
Lemma expired_exp_rejected (now e : Z) (s : Segments) (c : gmap string JSON) :
  seg_claims s = Some c ->
  c !! "exp" = Some (JNumber e) ->
  float64_of_Z e <> 0 ->
  float64_of_Z e <= now ->
  exists tok err, validateJWT hmac JWT_SECRET now (Compact s) = (tok, Some err).
Proof.
  intros Hc He Hnz Hle.
  assert (Hv : forall claims, decode_object c = Some claims ->
                 Validate claims now = false).
  { intros claims Hdc.
    destruct (decode_object_member _ _ _ _ Hdc He) as (v & Hv & Hl).
    simpl in Hv. destruct (in_float64 e); [|discriminate]. injection Hv as <-.
    unfold Validate, verifyExpiresAt, parseNumericDate. rewrite Hl.
    destruct (Z.eqb_spec (float64_of_Z e) 0) as [|_]; [contradiction|].
    pose proof (numericDate_past _ _ Hle).
    destruct (Z.ltb_spec (clock now) (numericDate (float64_of_Z e)));
      [lia | reflexivity]. }
  unfold validateJWT, Parse, ParseUnverified. rewrite Hc. simpl.
  destruct (decode_object c) as [claims|] eqn:Hdc.
  - specialize (Hv claims eq_refl).
    repeat case_match; simplify_eq; eauto.
    all: simpl in *; congruence.
  - repeat case_match; simplify_eq; eauto.
Qed.

(** C4, what the code does: the token [createJWT] issues embeds the expiry
    instant 1516239022 under the key "ExpiresAt", and validating it at any
    later time succeeds. *)
Theorem issued_token_valid_after_expiry (a : Account) (now : Z)
    (token : TokenString) :
  createJWT hmac JWT_SECRET a = Ok token ->
  1516239022 < now ->
  exists t,
    validateJWT hmac JWT_SECRET now token = (Some t, None) /\
    Valid t = true /\
    Claims t !! "ExpiresAt" = Some (VFloat64 1516239022).
Proof.
  intros Hissue _.
  destruct (validate_issued a now token Hissue) as (t & Hv & Hvalid & _ & Hexp).
  exists t. auto.
Qed.

(** The token of an account whose number a [float64] holds exactly carries
    that number, as the gate reads it. *)
Lemma issued_identity (a : Account) (now : Z) (token : TokenString) :
  createJWT hmac JWT_SECRET a = Ok token ->
  Z.abs (Number a) <= 2 ^ 53 ->
  exists t,
    validateJWT hmac JWT_SECRET now token = (Some t, None) /\
    Valid t = true /\
    Claims t !! "AccountNumber" = Some (VFloat64 (Number a)) /\
    token_identity t = Some (Number a).
Proof.
  intros Hissue Hsmall.
  destruct (validate_issued a now token Hissue) as (t & Hv & Hvalid & Hnum & _).
  rewrite wrap_int64_exact in Hnum by (apply in_int64_range; lia).
  rewrite (float64_of_Z_exact _ Hsmall) in Hnum.
  exists t. repeat split; try assumption.
  unfold token_identity. rewrite Hnum.
  now rewrite (int64_of_float64_exact _ Hsmall).
Qed.

(** C5: for every account of a database the store can hold, validating the
    token issued for it under the same secret, before the expiry it
    embeds, succeeds and yields the account's number. *)
Theorem issued_token_round_trip (d : DB) (a : Account) (now : Z)
    (token : TokenString) :
  built d ->
  a ∈ accounts d ->
  createJWT hmac JWT_SECRET a = Ok token ->
  now < 1516239022 ->
  exists t,
    validateJWT hmac JWT_SECRET now token = (Some t, None) /\
    Valid t = true /\
    token_identity t = Some (Number a).
Proof.
  intros Hd Ha Hissue _.
  destruct (built_rows_fit d Hd a Ha) as [Hfit _].
  destruct (issued_identity a now token Hissue
              (in_int32_small _ (fits_columns_int32 _ Hfit)))
    as (t & Hv & Hvalid & _ & Hid).
  exists t. auto.
Qed.

(** C9: a token string whose signing method is not an HMAC one ("none",
    an asymmetric method, an unregistered or absent [alg], or a string
    that does not parse) is refused by [validateJWT] with an error, and
    the token returned with it is not valid. *)
Theorem non_hmac_token_rejected (now : Z) (ts : TokenString) :
  (forall h, method_of ts <> Some (SigningMethodHMAC h)) ->
  exists tok e,
    validateJWT hmac JWT_SECRET now ts = (tok, Some e) /\
    forall t, tok = Some t -> Valid t = false.
Proof.
  intros Hm. unfold validateJWT, Parse, method_of in *.
  destruct (ParseUnverified ts) as [[t|] [e|]] eqn:HP.
  - exists (Some t), e. split; [reflexivity|].
    intros t' [= <-]. eapply ParseUnverified_not_valid; eauto.
  - destruct ts as [|s]; [discriminate HP|].
    destruct (seg_signature s) as [sig|].
    2:{ exists (Some t), ErrTokenMalformed. split; [reflexivity|].
        intros t' [= <-]. eapply ParseUnverified_not_valid; eauto. }
    unfold keyFunc; simpl.
    destruct (Method t) as [m|] eqn:HM.
    + destruct m; simpl;
        try (eexists _, _; split; [reflexivity | intros t' [= <-]; reflexivity]).
      exfalso. eapply Hm. reflexivity.
    + eexists _, _; split; [reflexivity | intros t' [= <-]; reflexivity].
  - exists None, e. split; [reflexivity | discriminate].
  - exfalso. unfold ParseUnverified in HP. repeat case_match; simplify_eq.
Qed.
End TokenService.

Lemma bank_built : built Sample.bank.
Proof.
  eapply (built_create (mkDB [Sample.alice] true) Sample.bank Sample.bob 2 None);
    [|reflexivity].
  eapply (built_create (mkDB [] true) _ Sample.alice 1 None); [|reflexivity].
  apply built_empty.
Qed.

Lemma issued_token_valid_after_expiry_witness :
  exists t,
    validateJWT Sample.sample_hmac "s3cret" 1700000000 (Sample.token_of Sample.alice)
      = (Some t, None) /\
    Valid t = true /\
    Claims t !! "ExpiresAt" = Some (VFloat64 1516239022).
Proof.
  apply (issued_token_valid_after_expiry Sample.sample_hmac "s3cret" Sample.alice
           1700000000 (Sample.token_of Sample.alice)); [reflexivity | lia].
Defined.

Lemma issued_token_round_trip_witness :
  exists t,
    validateJWT Sample.sample_hmac "s3cret" 1500000000 (Sample.token_of Sample.alice)
      = (Some t, None) /\
    Valid t = true /\
    token_identity t = Some 1001.
Proof.
  apply (issued_token_round_trip Sample.sample_hmac "s3cret" Sample.bank Sample.alice
           1500000000 (Sample.token_of Sample.alice));
    [exact bank_built | left | reflexivity | lia].
Defined.

Lemma non_hmac_token_rejected_witness :
  exists tok e,
    validateJWT Sample.sample_hmac "s3cret" 1500000000 Sample.none_token = (tok, Some e) /\
    forall t, tok = Some t -> Valid t = false.
Proof.
  apply (non_hmac_token_rejected Sample.sample_hmac "s3cret" 1500000000 Sample.none_token).
  intros h. vm_compute. discriminate.
Defined.

(** ** Login *)

Section Login.
Variable hmac : Hash -> string -> gmap string JSON * gmap string JSON -> string.
Variable hash_matches : string -> string -> bool.
Variable JWT_SECRET : string.

(** C1, what the code does: for a POST /login whose body decodes and whose
    account number resolves, a password that matches the stored
    credential is answered 400 "not authenticated", and a password that
    does not match is answered 200 with a token and the account number. *)
Theorem login_check_is_inverted (r : Request) (s : State)
    (o : Document) (req : LoginRequest) (acc : Account) :
  req_Method r = "POST" ->
  req_Body r = Some o ->
  decodeLoginRequest o = Ok req ->
  GetAccountByNumber (lr_Number req) (db s) = Ok acc ->
  (ValidatePassword hash_matches acc (lr_Password req) = true ->
   route_login hmac hash_matches JWT_SECRET r s
   = Returned (WriteJSON s StatusBadRequest (APIError (ErrorOf ErrNotAuthenticated))))
  /\
  (ValidatePassword hash_matches acc (lr_Password req) = false ->
   exists token,
     createJWT hmac JWT_SECRET acc = Ok token /\
     route_login hmac hash_matches JWT_SECRET r s
     = Returned (WriteJSON s StatusOK (LoginResponse token (Number acc)))).
Proof.
  intros Hm Hb Hd Hacc.
  unfold route_login, makeHTTPHandlerFunc, handleLogin.
  rewrite Hm, Hb, Hd, Hacc. simpl.
  split; intros Hpw; rewrite Hpw.
  - reflexivity.
  - eexists. split; reflexivity.
Qed.
End Login.

Lemma login_check_is_inverted_witness :
  route_login Sample.sample_hmac Sample.sample_hash_matches "s3cret"
    (Sample.post (Sample.login_body 1001 "alice-pw")) Sample.idle
  = Returned (WriteJSON Sample.idle StatusBadRequest
                (APIError (ErrorOf ErrNotAuthenticated)))
  /\
  exists token,
    route_login Sample.sample_hmac Sample.sample_hash_matches "s3cret"
      (Sample.post (Sample.login_body 1001 "wrong")) Sample.idle
    = Returned (WriteJSON Sample.idle StatusOK (LoginResponse token 1001)).
Proof.
  split.
  - apply (login_check_is_inverted Sample.sample_hmac Sample.sample_hash_matches
             "s3cret" (Sample.post (Sample.login_body 1001 "alice-pw")) Sample.idle
             (Sample.login_body 1001 "alice-pw") (mkLoginRequest 1001 "alice-pw")
             Sample.alice); reflexivity.
  - destruct (login_check_is_inverted Sample.sample_hmac Sample.sample_hash_matches
                "s3cret" (Sample.post (Sample.login_body 1001 "wrong")) Sample.idle
                (Sample.login_body 1001 "wrong") (mkLoginRequest 1001 "wrong")
                Sample.alice eq_refl eq_refl eq_refl eq_refl) as [_ H].
    destruct (H eq_refl) as (token & _ & Hrun).
    exists token. exact Hrun.
Defined.

(** ** Authorization gate *)

Section Gate.
Variable hmac : Hash -> string -> gmap string JSON * gmap string JSON -> string.
Variable JWT_SECRET : string.



(** C7, what the code does: a request without a token (the header is
    absent, or holds any string that is not three dot-separated segments)
    makes the gate dereference the nil token: it panics, and no response
    is written. *)
Theorem gate_panics_without_token (handlerFunc : HandlerFunc) (now : Z)
    (method : string) (body : option Document) (id : string) (s : State) :
  withJWTAuth hmac JWT_SECRET handlerFunc now
    (mkRequest method body NotThreeParts id) s
  = Panicked NilDereference s.
Proof. reflexivity. Qed.


(** X17: the token of an account opens that account's own resource: the
    gate hands the request to the wrapped handler. *)
Lemma own_token_admitted (handlerFunc : HandlerFunc) (now : Z)
    (r : Request) (s : State) (A : Account) (token : TokenString) :
  createJWT hmac JWT_SECRET A = Ok token ->
  req_Authorization r = token ->
  getID r = Ok (ID A) ->
  GetAccountByID (ID A) (db s) = Ok A ->
  Z.abs (Number A) <= 2 ^ 53 ->
  withJWTAuth hmac JWT_SECRET handlerFunc now r s = handlerFunc r s.
Proof.
  intros Hissue Hauth Hid HA Hrange.
  destruct (issued_identity hmac JWT_SECRET A now token Hissue Hrange)
    as (t & Hv & _ & Hnum & _).
  unfold withJWTAuth. rewrite Hauth, Hv.
  unfold authorize. rewrite Hid, HA, Hnum.
  rewrite (int64_of_float64_exact _ Hrange).
  now rewrite Z.eqb_refl.
Qed.
End Gate.


(** * Further properties of the code *)

(** ** Account store: lookups, deletion and creation *)

Lemma select_by_id_nil (id : Z) (rows : list Account) :
  select_by_id id rows = [] <-> forall a, a ∈ rows -> ID a <> id.
Proof.
  unfold select_by_id. split.
  - intros Hnil a Ha Hid. exact (filter_nil_not_elem_of _ rows a Hnil Hid Ha).
  - intros Hall. induction rows as [|a rows IH]; [reflexivity|].
    rewrite filter_cons_False by (apply Hall; left).
    apply IH. intros b Hb. apply Hall. now right.
Qed.

Lemma delete_by_id_absent (id : Z) (rows : list Account) :
  (forall a, a ∈ rows -> ID a <> id) -> delete_by_id id rows = rows.
Proof.
  unfold delete_by_id. intros Hall.
  induction rows as [|a rows IH]; [reflexivity|].
  rewrite filter_cons_True by (apply Hall; left).
  f_equal. apply IH. intros b Hb. apply Hall. now right.
Qed.

Lemma delete_by_id_gone (id : Z) (rows : list Account) (a : Account) :
  a ∈ delete_by_id id rows -> ID a <> id /\ a ∈ rows.
Proof. unfold delete_by_id. intros H. now apply list_elem_of_filter in H. Qed.

Lemma CreateAccount_ok_inv (acc : Account) (nextval : Z) (d d' : DB) :
  CreateAccount acc nextval d = (d', None) ->
  reachable d = true /\ fits_columns acc = true /\
  in_int32 nextval = true /\
  select_by_id nextval (accounts d) = [] /\
  d' = mkDB (accounts d ++ [stored_row acc nextval]) true.
Proof.
  unfold CreateAccount. destruct (reachable d); [|discriminate].
  destruct (fits_columns acc); simpl; [|discriminate].
  destruct (in_int32 nextval); simpl; [|discriminate].
  case_bool_decide as Hfree; [|discriminate].
  intros [= <-]. auto.
Qed.

(** X1: an account that [GetAccountByID] returns is a row of the table with
    the id asked for, and one that [GetAccountByNumber] returns is a row
    with the number asked for. *)
Theorem lookups_find_rows (key : Z) (d : DB) (a : Account) :
  (GetAccountByID key d = Ok a -> a ∈ accounts d /\ ID a = key) /\
  (GetAccountByNumber key d = Ok a -> a ∈ accounts d /\ Number a = key).
Proof.
  split.
  - unfold GetAccountByID. destruct (reachable d && in_int32 key); [|discriminate].
    destruct (select_by_id key (accounts d)) as [|b l] eqn:Hsel; [discriminate|].
    intros [= ->].
    assert (Hin : a ∈ select_by_id key (accounts d)) by (rewrite Hsel; left).
    unfold select_by_id in Hin. apply list_elem_of_filter in Hin as [Hid Hin].
    split; assumption.
  - unfold GetAccountByNumber.
    destruct (reachable d && in_int32 key); [|discriminate].
    destruct (select_by_number key (accounts d)) as [|b l] eqn:Hsel; [discriminate|].
    intros [= ->].
    assert (Hin : a ∈ select_by_number key (accounts d)) by (rewrite Hsel; left).
    unfold select_by_number in Hin. apply list_elem_of_filter in Hin as [Hid Hin].
    split; assumption.
Qed.

(** X2: on a database that answers, [GetAccountByID] fails with "account id
    not found" exactly when the id is within the range of the 32-bit id
    column and no row of the table has it; for an id outside that range the
    query itself fails, and the error is the driver's. *)
Theorem lookup_by_id_not_found_iff (id : Z) (d : DB) :
  reachable d = true ->
  (GetAccountByID id d = Err (ErrAccountNotFound id) <->
   in_int32 id = true /\ forall a, a ∈ accounts d -> ID a <> id) /\
  (in_int32 id = false -> GetAccountByID id d = Err ErrDriver).
Proof.
  intros Hr. unfold GetAccountByID. rewrite Hr. simpl.
  destruct (in_int32 id) eqn:Hid.
  - split; [|discriminate].
    pose proof (select_by_id_nil id (accounts d)) as Hnil.
    destruct (select_by_id id (accounts d)) as [|b l].
    + split; [intros _; split; [reflexivity | now apply Hnil] | reflexivity].
    + split; [discriminate | intros [_ H]; apply Hnil in H; discriminate H].
  - split; [|reflexivity].
    split; [discriminate | intros [H _]; discriminate H].
Qed.

Lemma lookup_by_id_not_found_iff_witness :
  (GetAccountByID 7 Sample.bank = Err (ErrAccountNotFound 7) <->
   in_int32 7 = true /\ forall a, a ∈ accounts Sample.bank -> ID a <> 7) /\
  (in_int32 7 = false -> GetAccountByID 7 Sample.bank = Err ErrDriver).
Proof. apply (lookup_by_id_not_found_iff 7 Sample.bank). reflexivity. Defined.

(** X3: a successful [DeleteAccount id] changes the result of
    [GetAccountByID] for no other id. *)
Theorem delete_keeps_other_accounts (id id' : Z) (d d' : DB) :
  DeleteAccount id d = (d', None) ->
  id <> id' ->
  GetAccountByID id' d' = GetAccountByID id' d.
Proof.
  intros H Hne. apply DeleteAccount_ok_inv in H as (Hr & _ & ->).
  unfold GetAccountByID; simpl. rewrite Hr.
  now rewrite delete_keeps_other_ids.
Qed.

Lemma delete_keeps_other_accounts_witness :
  GetAccountByID 2 (mkDB [Sample.bob] true) = GetAccountByID 2 Sample.bank.
Proof.
  apply (delete_keeps_other_accounts 1 2 Sample.bank (mkDB [Sample.bob] true));
    [reflexivity | lia].
Defined.

(** X4: deleting is idempotent: after a successful [DeleteAccount id], a
    second one succeeds too and leaves the database as the first left it. *)
Theorem delete_twice (id : Z) (d d' : DB) :
  DeleteAccount id d = (d', None) -> DeleteAccount id d' = (d', None).
Proof.
  intros H. apply DeleteAccount_ok_inv in H as (_ & Hid & ->).
  unfold DeleteAccount; simpl. rewrite Hid. f_equal. f_equal.
  apply delete_by_id_absent. intros a Ha. now apply delete_by_id_gone in Ha.
Qed.

Lemma delete_twice_witness :
  DeleteAccount 1 (mkDB [Sample.bob] true) = (mkDB [Sample.bob] true, None).
Proof. apply (delete_twice 1 Sample.bank). reflexivity. Defined.

(** X5: after a successful [DeleteAccount id], [GetAccounts] returns exactly
    the rows of before whose id is another one. *)
Theorem deleted_account_not_listed (id : Z) (d d' : DB) :
  DeleteAccount id d = (d', None) ->
  exists l, GetAccounts d' = Ok l /\
            forall a, a ∈ l <-> a ∈ accounts d /\ ID a <> id.
Proof.
  intros H. apply DeleteAccount_ok_inv in H as (_ & _ & ->).
  exists (delete_by_id id (accounts d)). split; [reflexivity|].
  intros a. unfold delete_by_id. rewrite list_elem_of_filter. tauto.
Qed.

Lemma deleted_account_not_listed_witness :
  exists l, GetAccounts (mkDB [Sample.bob] true) = Ok l /\
            forall a, a ∈ l <-> a ∈ accounts Sample.bank /\ ID a <> 1.
Proof.
  apply (deleted_account_not_listed 1 Sample.bank (mkDB [Sample.bob] true)).
  reflexivity.
Defined.

(** X6: after a successful [CreateAccount], [GetAccountByID] of the id the
    sequence handed out returns the account given, with that id. *)
Theorem create_then_lookup (acc : Account) (nextval : Z) (d d' : DB) :
  CreateAccount acc nextval d = (d', None) ->
  GetAccountByID nextval d' = Ok (stored_row acc nextval).
Proof.
  intros H. apply CreateAccount_ok_inv in H as (_ & _ & Hid & Hfree & ->).
  unfold GetAccountByID, select_by_id in *; simpl. rewrite Hid.
  rewrite filter_app, Hfree. simpl.
  rewrite filter_cons_True by reflexivity. reflexivity.
Qed.

Lemma create_then_lookup_witness :
  GetAccountByID 3
    (mkDB [Sample.alice; Sample.bob; stored_row Sample.erin 3] true)
  = Ok (stored_row Sample.erin 3).
Proof.
  apply (create_then_lookup Sample.erin 3 Sample.bank). reflexivity.
Defined.

(** X7: a successful [CreateAccount] changes the result of [GetAccountByID]
    for no id but the new one. *)
Theorem create_keeps_other_accounts (acc : Account) (nextval id : Z) (d d' : DB) :
  CreateAccount acc nextval d = (d', None) ->
  id <> nextval ->
  GetAccountByID id d' = GetAccountByID id d.
Proof.
  intros H Hne. apply CreateAccount_ok_inv in H as (Hr & _ & _ & _ & ->).
  unfold GetAccountByID, select_by_id; simpl. rewrite Hr, filter_app.
  rewrite filter_cons_False by (simpl; congruence).
  now rewrite filter_nil, app_nil_r.
Qed.

Lemma create_keeps_other_accounts_witness :
  GetAccountByID 1
    (mkDB [Sample.alice; Sample.bob; stored_row Sample.erin 3] true)
  = GetAccountByID 1 Sample.bank.
Proof.
  apply (create_keeps_other_accounts Sample.erin 3 1 Sample.bank); [reflexivity | lia].
Defined.

(** X8: deleting the account just created gives back the database of
    before the creation. *)
Theorem create_then_delete (acc : Account) (nextval : Z) (d d' : DB) :
  CreateAccount acc nextval d = (d', None) ->
  DeleteAccount nextval d' = (d, None).
Proof.
  intros H. apply CreateAccount_ok_inv in H as (Hr & _ & Hid & Hfree & ->).
  unfold DeleteAccount; simpl. rewrite Hid. f_equal.
  destruct d as [rows up]; simpl in *. subst up. f_equal.
  unfold delete_by_id. rewrite filter_app.
  rewrite filter_cons_False by (simpl; intros Hc; now apply Hc).
  rewrite filter_nil, app_nil_r.
  apply delete_by_id_absent. now apply select_by_id_nil.
Qed.

Lemma create_then_delete_witness :
  DeleteAccount 3 (mkDB [Sample.alice; Sample.bob; stored_row Sample.erin 3] true)
  = (Sample.bank, None).
Proof.
  apply (create_then_delete Sample.erin 3 Sample.bank). reflexivity.
Defined.

Lemma lookups_find_rows_witness :
  Sample.alice ∈ accounts Sample.bank /\ ID Sample.alice = 1.
Proof.
  apply (proj1 (lookups_find_rows 1 Sample.bank Sample.alice)). reflexivity.
Defined.

(** ** Token service: what [validateJWT] accepts and refuses *)

Section TokenChecks.
Variable hmac : Hash -> string -> gmap string JSON * gmap string JSON -> string.
Variable JWT_SECRET : string.


(** X10: a three-segment token whose header and claims decode, that names
    an HMAC method and whose signature is not the MAC of its first two
    segments under [JWT_SECRET] (signed under another secret, or altered
    after signing) is refused with the signature error, and the token
    returned is not valid. *)
Theorem forged_signature_rejected (now : Z) (s : Segments) (h c : gmap string JSON)
    (alg sig : string) (hash : Hash) :
  seg_header s = Some h ->
  seg_claims s = Some c ->
  seg_signature s = Some sig ->
  is_Some (decode_object h) ->
  is_Some (decode_object c) ->
  h !! "alg" = Some (JString alg) ->
  GetSigningMethod alg = Some (SigningMethodHMAC hash) ->
  sig <> hmac hash JWT_SECRET (h, c) ->
  exists t,
    validateJWT hmac JWT_SECRET now (Compact s)
      = (Some t, Some ErrTokenSignatureInvalid) /\
    Valid t = false.
Proof.
  intros Hh Hc Hs [header Hdh] [claims Hdc] Halg Hm Hsig. unfold validateJWT, Parse.
  rewrite (ParseUnverified_known_method s h c header claims alg _
             Hh Hc Hdh Hdc Halg Hm).
  rewrite Hs. unfold keyFunc. simpl. rewrite Hh, Hc. simpl.
  apply String.eqb_neq in Hsig. rewrite Hsig.
  eexists. split; reflexivity.
Qed.

(** X11: the key function asks for the HMAC family, not for HS256: a token
    signed under [JWT_SECRET] with any registered HMAC method (HS256, HS384
    or HS512), whose claims decode and pass the validator, is accepted. *)
Theorem any_hmac_variant_accepted (now : Z) (alg : string) (hash : Hash)
    (claims : gmap string JSON) (decoded : gmap string GoValue) :
  GetSigningMethod alg = Some (SigningMethodHMAC hash) ->
  decode_object claims = Some decoded ->
  Validate decoded now = true ->
  exists t,
    validateJWT hmac JWT_SECRET now (SignedString hmac hash alg claims JWT_SECRET)
      = (Some t, None) /\
    Valid t = true /\ Claims t = decoded.
Proof.
  intros Hm Hdc Hv. unfold SignedString.
  destruct (decode_signed_header alg) as [header Hdh].
  eexists. split.
  - eapply (validateJWT_accepts hmac JWT_SECRET now _ _ _ header decoded alg _ hash);
      first [ eassumption | reflexivity
            | rewrite lookup_insert_ne by discriminate; apply lookup_singleton_eq ].
  - split; reflexivity.
Qed.

(** X13: a token whose claims carry a not-before instant "nbf" that lies
    after the time of validation, and early enough for a [time.Time] to
    hold it without wrapping (before the year 292277026596), is refused. *)
Theorem not_yet_valid_rejected (now nbf : Z) (s : Segments) (c : gmap string JSON) :
  seg_claims s = Some c ->
  c !! "nbf" = Some (JNumber nbf) ->
  float64_of_Z nbf <> 0 ->
  - 2 ^ 63 <= now ->
  now < float64_of_Z nbf ->
  float64_of_Z nbf + unixToInternal <= 2 ^ 63 - 1 ->
  exists tok err, validateJWT hmac JWT_SECRET now (Compact s) = (tok, Some err).
Proof.
  intros Hc Hn Hnz Hlo Hlt Hhi.
  assert (Hv : forall claims, decode_object c = Some claims ->
                 Validate claims now = false).
  { intros claims Hdc.
    destruct (decode_object_member _ _ _ _ Hdc Hn) as (v & Hv & Hl).
    simpl in Hv. destruct (in_float64 nbf); [|discriminate]. injection Hv as <-.
    unfold Validate. apply andb_false_iff. right.
    unfold verifyNotBefore, parseNumericDate. rewrite Hl.
    destruct (Z.eqb_spec (float64_of_Z nbf) 0) as [|_]; [contradiction|].
    pose proof (numericDate_future _ _ Hlo Hlt Hhi).
    destruct (Z.ltb_spec (clock now) (numericDate (float64_of_Z nbf)));
      [reflexivity | lia]. }
  unfold validateJWT, Parse, ParseUnverified. rewrite Hc. simpl.
  destruct (decode_object c) as [claims|] eqn:Hdc.
  - specialize (Hv claims eq_refl).
    repeat case_match; simplify_eq; eauto.
    all: simpl in *; congruence.
  - repeat case_match; simplify_eq; eauto.
Qed.

(** X14: the number of an account that [CreateAccount] has stored fits the
    32-bit column, so the token issued for the stored account validates and
    yields exactly that number. *)
Theorem created_account_token_round_trip (acc : Account) (nextval now : Z)
    (d d' : DB) (token : TokenString) :
  CreateAccount acc nextval d = (d', None) ->
  createJWT hmac JWT_SECRET (stored_row acc nextval) = Ok token ->
  exists t,
    validateJWT hmac JWT_SECRET now token = (Some t, None) /\
    token_identity t = Some (Number acc).
Proof.
  intros Hc Hissue. apply CreateAccount_ok_inv in Hc as (_ & Hfit & _ & _ & _).
  pose proof (in_int32_small _ (fits_columns_int32 _ Hfit)) as Hn.
  destruct (issued_identity hmac JWT_SECRET (stored_row acc nextval) now token
              Hissue Hn) as (t & Hv & _ & _ & Hid).
  exists t. split; [exact Hv | exact Hid].
Qed.
End TokenChecks.


Lemma forged_signature_rejected_witness :
  exists t,
    validateJWT Sample.sample_hmac "s3cret" 1700000000 Sample.foreign_secret_token
      = (Some t, Some ErrTokenSignatureInvalid) /\
    Valid t = false.
Proof.
  unfold Sample.foreign_secret_token, Sample.signed, SignedString.
  eapply (forged_signature_rejected Sample.sample_hmac "s3cret" 1700000000 _ _ _
            "HS256" "otherHS256" SHA256);
    [reflexivity | reflexivity | reflexivity
    | vm_compute; eauto | vm_compute; eauto
    | reflexivity | reflexivity | vm_compute; discriminate].
Defined.

Lemma any_hmac_variant_accepted_witness :
  exists t,
    validateJWT Sample.sample_hmac "s3cret" 1700000000 Sample.hs512_token
      = (Some t, None) /\
    Valid t = true /\
    Claims t = {[ "AccountNumber" := VFloat64 1001 ]}.
Proof.
  apply (any_hmac_variant_accepted Sample.sample_hmac "s3cret" 1700000000
           "HS512" SHA512 {[ "AccountNumber" := JNumber 1001 ]}
           {[ "AccountNumber" := VFloat64 1001 ]});
    vm_compute; reflexivity.
Defined.

Lemma expired_exp_rejected_witness :
  exists tok err,
    validateJWT Sample.sample_hmac "s3cret" 1700000000 (Sample.exp_token 1600000000)
      = (tok, Some err).
Proof.
  unfold Sample.exp_token, Sample.signed, SignedString.
  eapply (expired_exp_rejected Sample.sample_hmac "s3cret" 1700000000 1600000000);
    [reflexivity | reflexivity | vm_compute; discriminate | vm_compute; discriminate].
Defined.

Lemma not_yet_valid_rejected_witness :
  exists tok err,
    validateJWT Sample.sample_hmac "s3cret" 1700000000 (Sample.nbf_token 1800000000)
      = (tok, Some err).
Proof.
  unfold Sample.nbf_token, Sample.signed, SignedString.
  eapply (not_yet_valid_rejected Sample.sample_hmac "s3cret" 1700000000 1800000000);
    [reflexivity | reflexivity | vm_compute; discriminate | lia
    | vm_compute; reflexivity | vm_compute; discriminate].
Defined.

Lemma created_account_token_round_trip_witness :
  exists t,
    validateJWT Sample.sample_hmac "s3cret" 1700000000
      (Sample.token_of (stored_row Sample.erin 3)) = (Some t, None) /\
    token_identity t = Some 1003.
Proof.
  apply (created_account_token_round_trip Sample.sample_hmac "s3cret" Sample.erin 3
           1700000000 Sample.bank
           (mkDB [Sample.alice; Sample.bob; stored_row Sample.erin 3] true));
    reflexivity.
Defined.

(** ** Authorization gate and handlers *)


Section GateChecks.
Variable hmac : Hash -> string -> gmap string JSON * gmap string JSON -> string.
Variable hash_matches : string -> string -> bool.
Variable JWT_SECRET : string.

Lemma gate_on_accepted_token (handlerFunc : HandlerFunc) (now : Z)
    (r : Request) (s : State) (t : Token) :
  validateJWT hmac JWT_SECRET now (req_Authorization r) = (Some t, None) ->
  withJWTAuth hmac JWT_SECRET handlerFunc now r s
  = authorize handlerFunc (Some t) r s.
Proof. intros Hv. unfold withJWTAuth. now rewrite Hv. Qed.

Lemma handleLogin_outcome (r : Request) (s : State) :
  (exists e, handleLogin hmac hash_matches JWT_SECRET r s = (s, Some e)) \/
  (exists acc token,
     createJWT hmac JWT_SECRET acc = Ok token /\
     handleLogin hmac hash_matches JWT_SECRET r s
     = (WriteJSON s StatusOK (LoginResponse token (Number acc)), None)).
Proof.
  unfold handleLogin. repeat case_match; simplify_eq; eauto.
Qed.


(** X19: with a token that validates but carries no numeric
    "AccountNumber" claim, a request for an existing account makes the gate
    panic at the unchecked type assertion; nothing is written. *)
Theorem token_without_account_number_panics (handlerFunc : HandlerFunc)
    (now : Z) (r : Request) (s : State) (t : Token) (id : Z) (a : Account) :
  validateJWT hmac JWT_SECRET now (req_Authorization r) = (Some t, None) ->
  getID r = Ok id ->
  GetAccountByID id (db s) = Ok a ->
  (forall f, Claims t !! "AccountNumber" <> Some (VFloat64 f)) ->
  withJWTAuth hmac JWT_SECRET handlerFunc now r s = Panicked InterfaceConversion s.
Proof.
  intros Hv Hid Ha Hno. rewrite (gate_on_accepted_token _ _ _ _ t Hv).
  unfold authorize. rewrite Hid, Ha.
  destruct (Claims t !! "AccountNumber") as [[| |f| |]|] eqn:Hc; try reflexivity.
  exfalso. exact (Hno f eq_refl).
Qed.


(** X21: the token a 200 login response carries is admitted by the gate to
    the resource of an account with the number of that response. *)
Theorem login_token_opens_account (handlerFunc : HandlerFunc) (now : Z)
    (r r' : Request) (s : State) (token : TokenString) (n id : Z) (a : Account) :
  route_login hmac hash_matches JWT_SECRET r s
    = Returned (WriteJSON s StatusOK (LoginResponse token n)) ->
  Z.abs n <= 2 ^ 53 ->
  req_Authorization r' = token ->
  getID r' = Ok id ->
  GetAccountByID id (db s) = Ok a ->
  Number a = n ->
  withJWTAuth hmac JWT_SECRET handlerFunc now r'
    (WriteJSON s StatusOK (LoginResponse token n))
  = handlerFunc r' (WriteJSON s StatusOK (LoginResponse token n)).
Proof.
  intros Hlogin Hrange Hauth Hid Ha Hn.
  assert (Hissue : exists acc, createJWT hmac JWT_SECRET acc = Ok token /\ Number acc = n).
  { unfold route_login, makeHTTPHandlerFunc in Hlogin.
    destruct (handleLogin_outcome r s) as [[e He] | (acc & token0 & Hissue & He)];
      rewrite He in Hlogin; injection Hlogin as Hlogin;
      apply app_inv_head in Hlogin.
    - unfold StatusBadRequest, StatusOK in Hlogin. discriminate Hlogin.
    - injection Hlogin as <- <-. eauto. }
  destruct Hissue as (acc & Hissue & Hacc).
  rewrite <- Hacc in Hrange.
  destruct (issued_identity hmac JWT_SECRET acc now token Hissue Hrange)
    as (t & Hv & _ & Hnum & _).
  rewrite <- Hauth in Hv. rewrite (gate_on_accepted_token _ _ _ _ t Hv).
  unfold authorize. rewrite Hid. simpl. rewrite Ha, Hnum.
  rewrite (int64_of_float64_exact _ Hrange).
  rewrite Hn, Hacc, Z.eqb_refl. reflexivity.
Qed.
End GateChecks.

Section HandlerChecks.
Variable hmac : Hash -> string -> gmap string JSON * gmap string JSON -> string.
Variable hash_matches : string -> string -> bool.
Variable JWT_SECRET : string.
Variable NewAccount : string -> string -> string -> result Account.

(** X22: the login, list and transfer handlers, and the by-id handler for
    every method but DELETE, leave the database as it was, whatever the
    request. *)
Theorem read_only_handlers (r : Request) (s : State) :
  db (fst (handleLogin hmac hash_matches JWT_SECRET r s)) = db s /\
  db (fst (handleGetAccount r s)) = db s /\
  db (fst (handleTransferAccount r s)) = db s /\
  (req_Method r <> "DELETE" -> db (fst (handleGetAccountByID r s)) = db s).
Proof.
  repeat split.
  - unfold handleLogin. repeat case_match; reflexivity.
  - unfold handleGetAccount. repeat case_match; reflexivity.
  - unfold handleTransferAccount. repeat case_match; reflexivity.
  - intros Hm. unfold handleGetAccountByID.
    destruct (String.eqb_spec (req_Method r) "DELETE") as [He|_]; [contradiction|].
    repeat case_match; reflexivity.
Qed.

(** X23: a request to /account with a method other than GET and POST is
    written to twice: the 405 plain-text error of [handleAccount], and after
    it the 400 JSON error that [makeHTTPHandlerFunc] adds for the returned
    error; the database is untouched. *)
Theorem unsupported_method_writes_twice (now nextval : Z) (r : Request) (s : State) :
  req_Method r <> "GET" ->
  req_Method r <> "POST" ->
  Run hmac hash_matches JWT_SECRET NewAccount now nextval RouteAccount r s
  = Returned (mkState
      (written s ++
         [mkResponse StatusMethodNotAllowed (PlainText "Method not allowed");
          mkResponse StatusBadRequest
            (APIError (ErrorOf (ErrMethodNotAllowed (req_Method r))))])
      (db s)).
Proof.
  intros Hg Hp. unfold Run, makeHTTPHandlerFunc, handleAccount.
  destruct (String.eqb_spec (req_Method r) "GET") as [|_]; [contradiction|].
  destruct (String.eqb_spec (req_Method r) "POST") as [|_]; [contradiction|].
  unfold WriteJSON, http_Error. simpl. now rewrite <- app_assoc.
Qed.

(** X24: a POST /login whose body decodes to a number within the range of
    the 32-bit number column that no row of a reachable database has is
    answered 400 with "account n not found". *)
Theorem login_unknown_account (r : Request) (s : State)
    (o : Document) (req : LoginRequest) :
  req_Method r = "POST" ->
  req_Body r = Some o ->
  decodeLoginRequest o = Ok req ->
  reachable (db s) = true ->
  in_int32 (lr_Number req) = true ->
  (forall a, a ∈ accounts (db s) -> Number a <> lr_Number req) ->
  route_login hmac hash_matches JWT_SECRET r s
  = Returned (WriteJSON s StatusBadRequest
                (APIError (ErrorOf (ErrAccountNotFound (lr_Number req))))).
Proof.
  intros Hm Hb Hd Hr Hin Hno. unfold route_login, makeHTTPHandlerFunc, handleLogin.
  rewrite Hm, Hb, Hd. simpl. unfold GetAccountByNumber. rewrite Hr, Hin. simpl.
  destruct (select_by_number (lr_Number req) (accounts (db s))) as [|a l] eqn:Hsel;
    [reflexivity|].
  exfalso. assert (Hmem : a ∈ select_by_number (lr_Number req) (accounts (db s)))
    by (rewrite Hsel; left).
  unfold select_by_number in Hmem. apply list_elem_of_filter in Hmem as [Hn Hmem].
  exact (Hno a Hmem Hn).
Qed.

(** X25: a GET of /account is answered 200 with every row of the table,
    whatever the request carries: the route is registered without the
    gate. *)
Theorem account_list_is_ungated (now nextval : Z) (r : Request) (s : State) :
  req_Method r = "GET" ->
  reachable (db s) = true ->
  Run hmac hash_matches JWT_SECRET NewAccount now nextval RouteAccount r s
  = Returned (WriteJSON s StatusOK (AccountList (accounts (db s)))).
Proof.
  intros Hm Hr. unfold Run, makeHTTPHandlerFunc, handleAccount.
  rewrite Hm. simpl. unfold handleGetAccount, GetAccounts. now rewrite Hr.
Qed.


(** X27: deleting an id within the range of the 32-bit id column that no
    row has is not an error: the handler answers 200 with that id and the
    database is unchanged. *)
Theorem delete_of_missing_account_reports_deleted (r : Request) (s : State) (id : Z) :
  getID r = Ok id ->
  reachable (db s) = true ->
  in_int32 id = true ->
  (forall a, a ∈ accounts (db s) -> ID a <> id) ->
  handleDeleteAccount r s = (WriteJSON s StatusOK (DeletedBody id), None).
Proof.
  intros Hid Hr Hin Hno. unfold handleDeleteAccount, DeleteAccount.
  rewrite Hid, Hr, Hin. simpl.
  rewrite (delete_by_id_absent _ _ Hno).
  destruct s as [w [rows up]]; simpl in *. now subst up.
Qed.
End HandlerChecks.

(** ** The further properties on the sample data *)


Lemma own_token_admitted_witness :
  withJWTAuth Sample.sample_hmac "s3cret" Sample.marking_handler 1700000000
    (Sample.get_account "1" (Sample.token_of Sample.alice)) Sample.idle
  = Sample.marking_handler
      (Sample.get_account "1" (Sample.token_of Sample.alice)) Sample.idle.
Proof.
  apply (own_token_admitted Sample.sample_hmac "s3cret" Sample.marking_handler
           1700000000 (Sample.get_account "1" (Sample.token_of Sample.alice))
           Sample.idle Sample.alice (Sample.token_of Sample.alice));
    try reflexivity.
  simpl. lia.
Defined.


Lemma token_without_account_number_panics_witness :
  withJWTAuth Sample.sample_hmac "s3cret" Sample.marking_handler 1700000000
    (Sample.get_account "1" Sample.anonymous_token) Sample.idle
  = Panicked InterfaceConversion Sample.idle.
Proof.
  apply (token_without_account_number_panics Sample.sample_hmac "s3cret"
           Sample.marking_handler 1700000000
           (Sample.get_account "1" Sample.anonymous_token) Sample.idle
           (Sample.parsed Sample.anonymous_token) 1 Sample.alice).
  - vm_compute. reflexivity.
  - reflexivity.
  - reflexivity.
  - intros f. vm_compute. discriminate.
Defined.


Lemma login_token_opens_account_witness :
  withJWTAuth Sample.sample_hmac "s3cret" Sample.marking_handler 1700000000
    (Sample.get_account "1" (Sample.token_of Sample.alice))
    (WriteJSON Sample.idle StatusOK (LoginResponse (Sample.token_of Sample.alice) 1001))
  = Sample.marking_handler
      (Sample.get_account "1" (Sample.token_of Sample.alice))
      (WriteJSON Sample.idle StatusOK (LoginResponse (Sample.token_of Sample.alice) 1001)).
Proof.
  apply (login_token_opens_account Sample.sample_hmac Sample.sample_hash_matches
           "s3cret" Sample.marking_handler 1700000000
           (Sample.post (Sample.login_body 1001 "wrong"))
           (Sample.get_account "1" (Sample.token_of Sample.alice))
           Sample.idle (Sample.token_of Sample.alice) 1001 1 Sample.alice);
    try reflexivity.
  lia.
Defined.

Lemma read_only_handlers_witness :
  db (fst (handleGetAccountByID (Sample.get_account "1" NotThreeParts) Sample.idle))
  = Sample.bank.
Proof.
  apply (read_only_handlers Sample.sample_hmac Sample.sample_hash_matches "s3cret"
           (Sample.get_account "1" NotThreeParts) Sample.idle).
  discriminate.
Defined.

Lemma unsupported_method_writes_twice_witness :
  Run Sample.sample_hmac Sample.sample_hash_matches "s3cret" Sample.sample_NewAccount
    1700000000 3 RouteAccount (mkRequest "PUT" None NotThreeParts "") Sample.idle
  = Returned (mkState
      [mkResponse StatusMethodNotAllowed (PlainText "Method not allowed");
       mkResponse StatusBadRequest (APIError (ErrorOf (ErrMethodNotAllowed "PUT")))]
      Sample.bank).
Proof.
  apply (unsupported_method_writes_twice Sample.sample_hmac Sample.sample_hash_matches
           "s3cret" Sample.sample_NewAccount 1700000000 3
           (mkRequest "PUT" None NotThreeParts "") Sample.idle); discriminate.
Defined.

Lemma login_unknown_account_witness :
  route_login Sample.sample_hmac Sample.sample_hash_matches "s3cret"
    (Sample.post (Sample.login_body 4242 "pw")) Sample.idle
  = Returned (WriteJSON Sample.idle StatusBadRequest
                (APIError (ErrorOf (ErrAccountNotFound 4242)))).
Proof.
  apply (login_unknown_account Sample.sample_hmac Sample.sample_hash_matches "s3cret"
           (Sample.post (Sample.login_body 4242 "pw")) Sample.idle
           (Sample.login_body 4242 "pw") (mkLoginRequest 4242 "pw"));
    try reflexivity.
  apply Forall_forall. repeat constructor; simpl; lia.
Defined.

Lemma account_list_is_ungated_witness :
  Run Sample.sample_hmac Sample.sample_hash_matches "s3cret" Sample.sample_NewAccount
    1700000000 3 RouteAccount (mkRequest "GET" None NotThreeParts "") Sample.idle
  = Returned (WriteJSON Sample.idle StatusOK (AccountList [Sample.alice; Sample.bob])).
Proof.
  apply (account_list_is_ungated Sample.sample_hmac Sample.sample_hash_matches
           "s3cret" Sample.sample_NewAccount 1700000000 3
           (mkRequest "GET" None NotThreeParts "") Sample.idle); reflexivity.
Defined.


Lemma delete_of_missing_account_reports_deleted_witness :
  handleDeleteAccount (Sample.delete_account "9" NotThreeParts) Sample.idle
  = (WriteJSON Sample.idle StatusOK (DeletedBody 9), None).
Proof.
  apply (delete_of_missing_account_reports_deleted
           (Sample.delete_account "9" NotThreeParts) Sample.idle 9);
    try reflexivity.
  apply Forall_forall. repeat constructor; simpl; lia.
Defined.
